(** * evalscope.backend.rag_eval.utils.embedding

    A shallow embedding of [embedding.py]: the shared [BaseModel]
    constructor, the three adapters ([SentenceTransformerModel],
    [CrossEncoderModel], [APIEmbeddingModel]) and the factory
    [EmbeddingModel.load].

    The third-party runtimes (sentence_transformers, langchain_openai,
    torch, the ModelScope download helper, the file system) are not part of
    this module: they are gathered in a record [world] of deterministic
    functions, each of which may raise.  Every call that the adapters make
    to one of them is logged as an [event], so that statements such as
    "download is invoked exactly once" are statements about the log. *)

From stdpp Require Import gmap strings list fin_maps pretty.
From Stdlib Require Import ZArith Lia.

Set Warnings "-register-all".
Local Open Scope Z_scope.

(** ** Python values *)

(** The values that travel through option bags, documents and sentences.
    A Python [str] is a [string], one character per code point. *)
Inductive pyval : Type :=
  | VNone
  | VBool (b : bool)
  | VInt (n : Z)
  | VStr (s : string)
  | VList (l : list pyval)
  | VTuple (l : list pyval)
  | VDict (d : gmap string pyval).

(** A [**kwargs] bag, and any stored option group. *)
Abbreviation bag := (gmap string pyval).

(** Python's truth value of an object, as tested by [if x] and [not x]. *)
Definition truthy (v : pyval) : bool :=
  match v with
  | VNone => false
  | VBool b => b
  | VInt n => negb (n =? 0)
  | VStr s => negb (String.eqb s "")
  | VList l | VTuple l => match l with [] => false | _ :: _ => true end
  | VDict d => negb (bool_decide (d = ∅))
  end.

(** [d.get(k)]: the value, or [None]. *)
Definition dict_get (d : bag) (k : string) : pyval := default VNone (d !! k).

(** [d.get(k, dflt)] and the value returned by [d.pop(k, dflt)]. *)
Definition dict_get_default (d : bag) (k : string) (dflt : pyval) : pyval :=
  default dflt (d !! k).

(** ** Exceptions and outcomes *)

Inductive pyerr : Type :=
  | TypeError
  | KeyError
  | IndexError
  | ValueError
  | AttributeError
  | AssertionError
  | NotImplementedError
  | ExternalError (msg : string).

Inductive outcome (A : Type) : Type :=
  | Ok (a : A)
  | Raise (e : pyerr).
Arguments Ok {A} a.
Arguments Raise {A} e.

#[global] Instance outcome_ret : MRet outcome := λ A a, Ok a.
#[global] Instance outcome_bind : MBind outcome := λ A B f m,
  match m with
  | Ok a => f a
  | Raise e => Raise e
  end.

(** ** Calls to the collaborators *)

(** What [encode] receives: one string, or a list of items. *)
Inductive texts_arg : Type :=
  | TStr (s : string)
  | TList (l : list pyval).

Inductive event : Type :=
  | EvDownload (model_id : string) (revision : option string)
  | EvSentenceTransformer (path : pyval) (config_kwargs model_kwargs : bag)
  | EvTransformer (path : pyval) (config_args model_args : bag)
  | EvWordEmbeddingDimension
  | EvPooling (dimension pooling_mode : pyval)
  | EvSentenceTransformerModules
  | EvSetMaxSeqLength (value : pyval)
  | EvCrossEncoder (path max_length : pyval)
  | EvOpenAIEmbeddings (model openai_api_base openai_api_key dimensions : pyval)
  | EvEncode (texts : texts_arg) (prompt : pyval) (kwargs : bag)
  | EvPredict (sentences : list (list pyval)) (kwargs : bag)
  | EvEmbedDocuments (chunk : list pyval) (chunk_size : pyval).

(** A computation: the calls it made, in order, and how it ended. *)
Definition act (A : Type) : Type := (list event * outcome A)%type.

#[global] Instance act_ret : MRet act := λ A a, ([], Ok a).
#[global] Instance act_bind : MBind act := λ A B f m,
  match m.2 with
  | Ok a => (m.1 ++ (f a).1, (f a).2)
  | Raise e => (m.1, Raise e)
  end.

(** A step that calls nobody. *)
Definition pure {A} (o : outcome A) : act A := ([], o).

(** One call to a collaborator. *)
Definition call {A} (ev : event) (o : outcome A) : act A := ([ev], o).

(** Apply a total function to the result. *)
Definition fmap_act {A B} (f : A → B) (m : act A) : act B :=
  a ← m; mret (f a).

Definition is_download (ev : event) : bool :=
  match ev with EvDownload _ _ => true | _ => false end.

(** Number of download calls in a log. *)
Definition downloads (t : list event) : nat := length (filter is_download t).

(** ** Strings *)

(** [str.isspace] on one character, for the code points below 256. *)
Definition is_space (c : Ascii.ascii) : bool :=
  let n := Z.of_N (Ascii.N_of_ascii c) in
  ((9 <=? n) && (n <=? 13)) || ((28 <=? n) && (n <=? 32))
  || (n =? 133) || (n =? 160).

Fixpoint lstrip (s : string) : string :=
  match s with
  | EmptyString => EmptyString
  | String c s' => if is_space c then lstrip s' else s
  end.

Fixpoint rstrip (s : string) : string :=
  match s with
  | EmptyString => EmptyString
  | String c s' =>
      match rstrip s' with
      | EmptyString => if is_space c then EmptyString else String c EmptyString
      | r => String c r
      end
  end.

(** [s.strip()] *)
Definition strip (s : string) : string := rstrip (lstrip s).

(** ** Small pieces of Python *)

(** [v[k] = x] for a string key: only a dict accepts it. *)
Definition setitem (v : pyval) (k : string) (x : pyval) : outcome bag :=
  match v with
  | VDict d => Ok (<[k := x]> d)
  | _ => Raise TypeError
  end.

(** [d.update(kwargs)]: the new entries win. *)
Definition dict_update (d kwargs : bag) : bag := kwargs ∪ d.

Definition int_of_bool (b : bool) : Z := if b then 1 else 0.

(** [a + b] *)
Definition py_add (a b : pyval) : outcome pyval :=
  match a, b with
  | VStr x, VStr y => Ok (VStr (x ++ y))
  | VInt x, VInt y => Ok (VInt (x + y))
  | VInt x, VBool y => Ok (VInt (x + int_of_bool y))
  | VBool x, VInt y => Ok (VInt (int_of_bool x + y))
  | VBool x, VBool y => Ok (VInt (int_of_bool x + int_of_bool y))
  | VList x, VList y => Ok (VList (x ++ y))
  | VTuple x, VTuple y => Ok (VTuple (x ++ y))
  | _, _ => Raise TypeError
  end.

(** An object used where an integer is required ([range], slice bounds). *)
Definition as_index (v : pyval) : outcome Z :=
  match v with
  | VInt n => Ok n
  | VBool b => Ok (int_of_bool b)
  | _ => Raise TypeError
  end.

Fixpoint range_from (fuel : nat) (i stop step : Z) : list Z :=
  match fuel with
  | O => []
  | S fuel' =>
      if i <? stop then i :: range_from fuel' (i + step) stop step else []
  end.

(** [range(0, stop, step)] for [step ≠ 0]; a negative step gives nothing
    since [stop] is a length. *)
Definition py_range (stop step : Z) : list Z :=
  if 0 <? step then range_from (Z.to_nat stop) 0 stop step else [].

(** [l[i:j]] for [0 ≤ i ≤ j]. *)
Definition py_slice {A} (l : list A) (i j : Z) : list A :=
  take (Z.to_nat (j - i)) (drop (Z.to_nat i) l).

(** ** Tensors *)

(** The content of a tensor, which is also what [tolist()] returns: a
    number, or a list of such. *)
Inductive nested (float : Type) : Type :=
  | Num (x : float)
  | Nest (l : list (nested float)).
Arguments Num {float} x.
Arguments Nest {float} l.

(** What a runtime hands back where the adapters assert a [Tensor]. *)
Inductive pyobj (float : Type) : Type :=
  | Tensor (t : nested float)
  | NotTensor (v : pyval).
Arguments Tensor {float} t.
Arguments NotTensor {float} v.

(** [t.tolist()] *)
Definition tolist {float} (t : nested float) : nested float := t.

(** [x[0]] on the result of [tolist()]. *)
Definition first_item {float} (x : nested float) : outcome (nested float) :=
  match x with
  | Num _ => Raise TypeError
  | Nest [] => Raise IndexError
  | Nest (r :: _) => Ok r
  end.

(** All rows have the length of the first one. *)
Definition rectangular {A} (rows : list (list A)) : bool :=
  match rows with
  | [] => true
  | r :: rest => forallb (λ r', (length r' =? length r)%nat) rest
  end.

(** ** The instances *)

Record BaseModel : Type := {
  model_name_or_path : pyval;
  max_seq_length : pyval;
  model_kwargs : bag;
  config_kwargs : bag;
  encode_kwargs : bag;
  prompt : pyval;
  revision : pyval
}.

Definition with_encode_kwargs (self : BaseModel) (ek : bag) : BaseModel :=
  {| model_name_or_path := model_name_or_path self;
     max_seq_length := max_seq_length self;
     model_kwargs := model_kwargs self;
     config_kwargs := config_kwargs self;
     encode_kwargs := ek;
     prompt := prompt self;
     revision := revision self |}.

(** [BaseModel.__init__(self, model_name_or_path, **kw)], where [kw] holds
    every keyword argument of the call: the named parameters are bound
    from it, the three option groups are popped from the rest.  Two limits
    of this rendering: [kw] is the bag after Python has bound the call, so
    it does not name [model_name_or_path] again (Python refuses such a call
    before the body runs); and a bag holds values, so the three groups of
    one call are taken to be three distinct dict objects, not one dict
    passed under several names. *)
Definition BaseModel_init (model_name_or_path : pyval) (kw : bag)
  : outcome BaseModel :=
  let max_seq_length := dict_get_default kw "max_seq_length" (VInt 512) in
  let prompt := dict_get_default kw "prompt" (VStr "") in
  let revision := dict_get_default kw "revision" (VStr "master") in
  model_kwargs ←
    setitem (dict_get_default kw "model_kwargs" (VDict ∅))
            "trust_remote_code" (VBool true);
  config_kwargs ←
    setitem (dict_get_default kw "config_kwargs" (VDict ∅))
            "trust_remote_code" (VBool true);
  encode_kwargs ←
    setitem (dict_get_default kw "encode_kwargs" (VDict ∅))
            "convert_to_tensor" (VBool true);
  mret {| model_name_or_path := model_name_or_path;
          max_seq_length := max_seq_length;
          model_kwargs := model_kwargs;
          config_kwargs := config_kwargs;
          encode_kwargs := encode_kwargs;
          prompt := prompt;
          revision := revision |}.

Definition revision_value (revision : option string) : pyval :=
  match revision with
  | Some r => VStr r
  | None => VNone
  end.

Section Embedding.

(** The model and client objects of the runtimes, and their numbers. *)
Context {STModel Transformer Pooling CEModel Client float : Type}.

(** The collaborators, each a function of its arguments that returns or
    raises.  [os_path_exists] is [os.path.exists]; [download_model] is the
    helper of [rag_eval.utils.tools] and [HubType_MODELSCOPE] the constant
    [HubType.MODELSCOPE] of [evalscope.constants], both outside this file;
    [SentenceTransformer], [models_Transformer], [models_Pooling],
    [SentenceTransformer_modules] (the call with [modules=]), [CrossEncoder]
    and [OpenAIEmbeddings] are the constructors of the runtimes;
    [set_max_seq_length] is the assignment to [self.model.max_seq_length];
    [SentenceTransformer_encode], [CrossEncoder_predict] and
    [embed_documents_api] are the methods [encode], [predict] and
    [embed_documents] of the wrapped [self.model]; [float32] is the rounding
    of [torch.tensor]; [str_other] renders a value that is not a [str]
    inside [str.format]. *)
Record world : Type := {
  os_path_exists : string → bool;
  download_model : string → option string → outcome string;
  HubType_MODELSCOPE : string;
  SentenceTransformer : pyval → bag → bag → outcome STModel;
  models_Transformer : pyval → bag → bag → outcome Transformer;
  get_word_embedding_dimension : Transformer → outcome pyval;
  models_Pooling : pyval → pyval → outcome Pooling;
  SentenceTransformer_modules : Transformer → Pooling → outcome STModel;
  set_max_seq_length : STModel → pyval → outcome STModel;
  SentenceTransformer_encode :
    STModel → texts_arg → pyval → bag → outcome (pyobj float);
  CrossEncoder : pyval → pyval → outcome CEModel;
  CrossEncoder_predict :
    CEModel → list (list pyval) → bag → outcome (pyobj float);
  OpenAIEmbeddings : pyval → pyval → pyval → pyval → outcome Client;
  embed_documents_api : Client → list pyval → pyval → outcome (list (list float));
  float32 : float → float;
  str_other : pyval → string
}.

Record SentenceTransformerModel : Type := {
  st_base : BaseModel;
  st_model : STModel
}.

Record CrossEncoderModel : Type := {
  ce_base : BaseModel;
  ce_model : CEModel
}.

Record APIEmbeddingModel : Type := {
  api_base : BaseModel;
  model_name : pyval;
  openai_api_base : pyval;
  openai_api_key : pyval;
  dimensions : pyval;
  api_model : Client;
  batch_size : pyval
}.

(** What [EmbeddingModel.load] returns. *)
Inductive adapter : Type :=
  | Bi (m : SentenceTransformerModel)
  | Cross (m : CrossEncoderModel)
  | Remote (m : APIEmbeddingModel).

Definition base_of (a : adapter) : BaseModel :=
  match a with
  | Bi m => st_base m
  | Cross m => ce_base m
  | Remote m => api_base m
  end.

Variable w : world.

(** [torch.tensor(rows)]: the rows must have one length; the numbers are
    stored in single precision. *)
Definition torch_tensor (rows : list (list float)) : outcome (nested float) :=
  if rectangular rows
  then Ok (Nest (map (λ r, Nest (map (λ x, Num (float32 w x)) r)) rows))
  else Raise ValueError.

(** [assert isinstance(embeddings, Tensor)] *)
Definition assert_tensor (o : pyobj float) : outcome (nested float) :=
  match o with
  | Tensor t => Ok t
  | NotTensor _ => Raise AssertionError
  end.

(** *** Constructors *)

(** [SentenceTransformerModel(model_name_or_path, **kw)] *)
Definition SentenceTransformerModel_init (name_or_path : pyval) (kw : bag)
  : act SentenceTransformerModel :=
  let pooling_mode := dict_get kw "pooling_mode" in
  let kwargs := delete "pooling_mode" kw in
  base ← pure (BaseModel_init name_or_path kwargs);
  model ←
    (if negb (truthy pooling_mode) then
       call (EvSentenceTransformer (model_name_or_path base)
               (config_kwargs base) (model_kwargs base))
            (SentenceTransformer w (model_name_or_path base)
               (config_kwargs base) (model_kwargs base))
     else
       word_embedding_model ←
         call (EvTransformer (model_name_or_path base)
                 (config_kwargs base) (model_kwargs base))
              (models_Transformer w (model_name_or_path base)
                 (config_kwargs base) (model_kwargs base));
       dimension ←
         call EvWordEmbeddingDimension
              (get_word_embedding_dimension w word_embedding_model);
       pooling_model ←
         call (EvPooling dimension pooling_mode)
              (models_Pooling w dimension pooling_mode);
       call EvSentenceTransformerModules
            (SentenceTransformer_modules w word_embedding_model pooling_model));
  model' ←
    call (EvSetMaxSeqLength (max_seq_length base))
         (set_max_seq_length w model (max_seq_length base));
  mret {| st_base := base; st_model := model' |}.

(** [CrossEncoderModel(model_name_or_path, **kw)] *)
Definition CrossEncoderModel_init (name_or_path : pyval) (kw : bag)
  : act CrossEncoderModel :=
  base ← pure (BaseModel_init name_or_path kw);
  model ←
    call (EvCrossEncoder (model_name_or_path base) (max_seq_length base))
         (CrossEncoder w (model_name_or_path base) (max_seq_length base));
  mret {| ce_base := base; ce_model := model |}.

(** [APIEmbeddingModel.__init__] on the bag [kwargs]: the client is built first; the call
    [super().__init__(model_name_or_path=self.model_name, **kwargs)] then
    refuses a bag that names [model_name_or_path] a second time. *)
Definition APIEmbeddingModel_init (kwargs : bag) : act APIEmbeddingModel :=
  let model_name := dict_get kwargs "model_name" in
  let openai_api_base := dict_get kwargs "api_base" in
  let openai_api_key := dict_get kwargs "api_key" in
  let dimensions := dict_get kwargs "dimensions" in
  model ←
    call (EvOpenAIEmbeddings model_name openai_api_base openai_api_key dimensions)
         (OpenAIEmbeddings w model_name openai_api_base openai_api_key dimensions);
  base ←
    pure (if bool_decide (is_Some (kwargs !! "model_name_or_path"))
          then Raise TypeError
          else BaseModel_init model_name kwargs);
  mret {| api_base := base;
          model_name := model_name;
          openai_api_base := openai_api_base;
          openai_api_key := openai_api_key;
          dimensions := dimensions;
          api_model := model;
          batch_size := dict_get_default (encode_kwargs base) "batch_size" (VInt 10) |}.

(** *** The factory *)

(** [EmbeddingModel.load(model_name_or_path, is_cross_encoder, hub,
    revision, **kwargs)] *)
Definition EmbeddingModel_load (model_name_or_path : string)
    (is_cross_encoder : bool) (hub : string) (revision : option string)
    (kwargs : bag) : act adapter :=
  if truthy (dict_get kwargs "model_name") then
    m ← APIEmbeddingModel_init kwargs; mret (Remote m)
  else
    model_name_or_path ←
      (if negb (os_path_exists w model_name_or_path)
          && String.eqb hub (HubType_MODELSCOPE w)
       then call (EvDownload model_name_or_path revision)
                 (download_model w model_name_or_path revision)
       else mret model_name_or_path);
    if is_cross_encoder then
      m ← CrossEncoderModel_init (VStr model_name_or_path)
            (<["revision" := revision_value revision]> kwargs);
      mret (Cross m)
    else
      m ← SentenceTransformerModel_init (VStr model_name_or_path)
            (<["revision" := revision_value revision]> kwargs);
      mret (Bi m).

(** *** Structured records *)

(** One argument of [str.format]: a [str] is itself, anything else goes
    through the collaborator that renders it. *)
Definition format_arg (v : pyval) : string :=
  match v with
  | VStr s => s
  | _ => str_other w v
  end.

(** ['{} {}'.format(doc.get('title', ''), doc['text']).strip()] *)
Definition normalize_doc (doc : pyval) : outcome pyval :=
  match doc with
  | VDict d =>
      let title := dict_get_default d "title" (VStr "") in
      match d !! "text" with
      | Some text => Ok (VStr (strip (format_arg title ++ " " ++ format_arg text)))
      | None => Raise KeyError
      end
  | _ => Raise AttributeError
  end.

Definition is_dict (v : pyval) : bool :=
  match v with VDict _ => true | _ => false end.

(** The head of [encode_corpus], shared by the two adapters that have it. *)
Definition corpus_texts (corpus : list pyval) : outcome (list pyval) :=
  match corpus with
  | [] => Raise IndexError
  | first :: _ =>
      if is_dict first then mapM normalize_doc corpus else Ok corpus
  end.

(** *** SentenceTransformerModel *)

(** [encode(self, texts, prompt=prompt_arg, **kwargs)]: the instance after
    the call, and the call itself. *)
Definition SentenceTransformerModel_encode (self : SentenceTransformerModel)
    (texts : texts_arg) (prompt_arg : pyval) (kwargs : bag)
  : SentenceTransformerModel * act (nested float) :=
  let kwargs := delete "prompt_name" kwargs in
  let ek := dict_update (encode_kwargs (st_base self)) kwargs in
  ({| st_base := with_encode_kwargs (st_base self) ek;
      st_model := st_model self |},
   if bool_decide (is_Some (ek !! "prompt")) then pure (Raise TypeError)
   else
     embeddings ←
       call (EvEncode texts prompt_arg ek)
            (SentenceTransformer_encode w (st_model self) texts prompt_arg ek);
     pure (assert_tensor embeddings)).

Definition SentenceTransformerModel_encode_queries
    (self : SentenceTransformerModel) (queries : texts_arg) (kwargs : bag)
  : SentenceTransformerModel * act (nested float) :=
  SentenceTransformerModel_encode self queries (prompt (st_base self)) ∅.

Definition SentenceTransformerModel_encode_corpus
    (self : SentenceTransformerModel) (corpus : list pyval) (kwargs : bag)
  : SentenceTransformerModel * act (nested float) :=
  match corpus_texts corpus with
  | Ok input_texts =>
      SentenceTransformerModel_encode self (TList input_texts) VNone ∅
  | Raise e => (self, pure (Raise e))
  end.

(** *** CrossEncoderModel *)

(** One turn of the loop over triples: unpack, unwrap the document, put the
    prompt in front of the query. *)
Definition unwrap_triple (self : CrossEncoderModel) (sentence : list pyval)
  : outcome (list pyval) :=
  match sentence with
  | [query; docs; instruction] =>
      docs ←
        match docs with
        | VDict d =>
            match d !! "text" with
            | Some text => Ok text
            | None => Raise KeyError
            end
        | _ => Ok docs
        end;
      query ← py_add (prompt (ce_base self)) query;
      mret [query; docs]
  | _ => Raise ValueError
  end.

(** [predict(self, sentences, **kwargs)]; a sentence is the sequence of
    its items. *)
Definition CrossEncoderModel_predict (self : CrossEncoderModel)
    (sentences : list (list pyval)) (kwargs : bag)
  : CrossEncoderModel * act (nested float) :=
  let ek := dict_update (encode_kwargs (ce_base self)) kwargs in
  ({| ce_base := with_encode_kwargs (ce_base self) ek;
      ce_model := ce_model self |},
   match sentences with
   | [] => pure (Raise IndexError)
   | first :: _ =>
       sentences ←
         pure (if (length first =? 3)%nat
               then mapM (unwrap_triple self) sentences
               else Ok sentences);
       embeddings ←
         call (EvPredict sentences ek)
              (CrossEncoder_predict w (ce_model self) sentences ek);
       pure (assert_tensor embeddings)
   end).

(** *** APIEmbeddingModel *)

(** The body of the loop over [range(0, len(texts), self.batch_size)]. *)
Fixpoint embed_batches (self : APIEmbeddingModel) (texts : list pyval)
    (size : Z) (starts : list Z) (embeddings : list (list float))
  : act (list (list float)) :=
  match starts with
  | [] => mret embeddings
  | i :: starts' =>
      let chunk := py_slice texts i (i + size) in
      response ←
        call (EvEmbedDocuments chunk (batch_size self))
             (embed_documents_api w (api_model self) chunk (batch_size self));
      embed_batches self texts size starts' (embeddings ++ response)
  end.

(** [encode(self, texts, **kwargs)] *)
Definition APIEmbeddingModel_encode (self : APIEmbeddingModel)
    (texts : texts_arg) (kwargs : bag)
  : APIEmbeddingModel * act (nested float) :=
  let texts := match texts with TStr s => [VStr s] | TList l => l end in
  (self,
   size ← pure (as_index (batch_size self));
   if size =? 0 then pure (Raise ValueError)
   else
     embeddings ←
       embed_batches self texts size
         (py_range (Z.of_nat (length texts)) size) [];
     pure (torch_tensor embeddings)).

Definition APIEmbeddingModel_encode_queries (self : APIEmbeddingModel)
    (queries : texts_arg) (kwargs : bag)
  : APIEmbeddingModel * act (nested float) :=
  APIEmbeddingModel_encode self queries kwargs.

Definition APIEmbeddingModel_encode_corpus (self : APIEmbeddingModel)
    (corpus : list pyval) (kwargs : bag)
  : APIEmbeddingModel * act (nested float) :=
  match corpus_texts corpus with
  | Ok input_texts => APIEmbeddingModel_encode self (TList input_texts) kwargs
  | Raise e => (self, pure (Raise e))
  end.

(** *** The methods of BaseModel, dispatched on the adapter *)

Definition encode_queries (self : adapter) (queries : texts_arg) (kwargs : bag)
  : adapter * act (nested float) :=
  match self with
  | Bi m => prod_map Bi id (SentenceTransformerModel_encode_queries m queries kwargs)
  | Cross m => (self, pure (Raise NotImplementedError))
  | Remote m => prod_map Remote id (APIEmbeddingModel_encode_queries m queries kwargs)
  end.

Definition encode_corpus (self : adapter) (corpus : list pyval) (kwargs : bag)
  : adapter * act (nested float) :=
  match self with
  | Bi m => prod_map Bi id (SentenceTransformerModel_encode_corpus m corpus kwargs)
  | Cross m => (self, pure (Raise NotImplementedError))
  | Remote m => prod_map Remote id (APIEmbeddingModel_encode_corpus m corpus kwargs)
  end.

(** [self.encode_corpus(texts).tolist()] *)
Definition embed_documents (self : adapter) (texts : list pyval)
  : adapter * act (nested float) :=
  prod_map id (fmap_act tolist) (encode_corpus self texts ∅).

(** [self.encode_queries(text).tolist()] *)
Definition embed_query (self : adapter) (text : string)
  : adapter * act (nested float) :=
  prod_map id (fmap_act tolist) (encode_queries self (TStr text) ∅).

End Embedding.

Arguments world : clear implicits.
Arguments SentenceTransformerModel : clear implicits.
Arguments CrossEncoderModel : clear implicits.
Arguments APIEmbeddingModel : clear implicits.
Arguments adapter : clear implicits.

(** ** Vocabulary of the statements *)

(** An option group of a bag is usable when it is absent or a dict. *)
Definition group_ok (kw : bag) (k : string) : bool :=
  match kw !! k with
  | None | Some (VDict _) => true
  | Some _ => false
  end.

Definition groups_ok (kw : bag) : bool :=
  group_ok kw "model_kwargs" && group_ok kw "config_kwargs"
  && group_ok kw "encode_kwargs".

(** The group that the caller supplied under [k], empty when absent. *)
Definition group (kw : bag) (k : string) : bag :=
  match kw !! k with
  | Some (VDict d) => d
  | _ => ∅
  end.

(** The flags that [BaseModel.__init__] forces. *)
Definition forced_flags (b : BaseModel) : Prop :=
  model_kwargs b !! "trust_remote_code" = Some (VBool true)
  ∧ config_kwargs b !! "trust_remote_code" = Some (VBool true)
  ∧ encode_kwargs b !! "convert_to_tensor" = Some (VBool true).

(** The stored groups are the caller's, with the forced flag written over
    whatever the caller had put under that key. *)
Definition groups_from (kw : bag) (b : BaseModel) : Prop :=
  model_kwargs b = <["trust_remote_code" := VBool true]> (group kw "model_kwargs")
  ∧ config_kwargs b = <["trust_remote_code" := VBool true]> (group kw "config_kwargs")
  ∧ encode_kwargs b = <["convert_to_tensor" := VBool true]> (group kw "encode_kwargs").

(** The last step of [EmbeddingModel.load]: the local adapter built from
    the resolved identifier. *)
Definition local_adapter {STModel Transformer Pooling CEModel Client float}
    (w : world STModel Transformer Pooling CEModel Client float)
    (is_cross_encoder : bool) (path : string) (revision : option string)
    (kwargs : bag)
  : act (adapter STModel CEModel Client) :=
  if is_cross_encoder then
    m ← CrossEncoderModel_init w (VStr path)
          (<["revision" := revision_value revision]> kwargs);
    mret (Cross m)
  else
    m ← SentenceTransformerModel_init w (VStr path)
          (<["revision" := revision_value revision]> kwargs);
    mret (Bi m).

(** The contiguous chunks [l[0:size]], [l[size:2*size]], ... of a list. *)
Fixpoint chunks_from {A} (fuel size : nat) (l : list A) : list (list A) :=
  match fuel with
  | O => []
  | S fuel' =>
      match l with
      | [] => []
      | _ :: _ => take size l :: chunks_from fuel' size (drop size l)
      end
  end.

Definition chunks {A} (size : nat) (l : list A) : list (list A) :=
  chunks_from (length l) size l.

(** What the remote client answers on a chunk. *)
Definition response {STModel Transformer Pooling CEModel Client float}
    (w : world STModel Transformer Pooling CEModel Client float)
    (self : APIEmbeddingModel Client) (chunk : list pyval)
  : list (list float) :=
  match embed_documents_api w (api_model self) chunk (batch_size self) with
  | Ok r => r
  | Raise _ => []
  end.

(** The document that is scored for [docs]: the [text] field of a record,
    anything else as it is. *)
Definition doc_text (docs : pyval) : option pyval :=
  match docs with
  | VDict d => d !! "text"
  | _ => Some docs
  end.

(** A (query, document, instruction) triple with a string query. *)
Definition triple_sentence (t : string * pyval * pyval) : list pyval :=
  [VStr t.1.1; t.1.2; t.2].

(** The pair that is scored for it. *)
Definition scored_pair (p : string) (t : string * pyval * pyval) : list pyval :=
  [VStr (p ++ t.1.1); default VNone (doc_text t.1.2)].

(** A structured record: an optional title and a text. *)
Definition record_value (doc : option string * string) : pyval :=
  VDict (match doc.1 with
         | Some t => <["title" := VStr t]> {["text" := VStr doc.2]}
         | None => {["text" := VStr doc.2]}
         end).

(** Title, one space, text, trimmed. *)
Definition normalized (doc : option string * string) : string :=
  strip (default ""%string doc.1 ++ " " ++ doc.2).

(** Nesting depth of a [tolist()] value. *)
Fixpoint depth {float} (x : nested float) : nat :=
  match x with
  | Num _ => 0
  | Nest l => S (foldr (λ y n, Nat.max (depth y) n) 0%nat l)
  end.

(** No whitespace at either end. *)
Definition trimmed (s : string) : Prop := lstrip s = s ∧ rstrip s = s.

(** ** A world to run the code in *)

(** Runtimes that always answer: models are [unit], numbers are integers,
    an embedding of a text is the one-number vector of its length. *)
Definition text_length (v : pyval) : Z :=
  match v with
  | VStr s => Z.of_nat (String.length s)
  | _ => 0
  end.

(** [str] of [None], of a boolean and of an integer, as Python prints
    them.  Lists, tuples and dicts are left out (rendered as nothing): no
    statement of this file formats one. *)
Definition demo_str (v : pyval) : string :=
  match v with
  | VNone => "None"
  | VBool true => "True"
  | VBool false => "False"
  | VInt n => pretty n
  | VStr s => s
  | VList _ | VTuple _ | VDict _ => ""
  end.

Definition demo_world (on_disk : string → bool)
  : world unit unit unit unit unit Z :=
  {| os_path_exists := on_disk;
     download_model := λ p _, Ok ("/cache/" ++ p)%string;
     HubType_MODELSCOPE := "modelscope";
     SentenceTransformer := λ _ _ _, Ok tt;
     models_Transformer := λ _ _ _, Ok tt;
     get_word_embedding_dimension := λ _, Ok (VInt 8);
     models_Pooling := λ _ _, Ok tt;
     SentenceTransformer_modules := λ _ _, Ok tt;
     set_max_seq_length := λ _ _, Ok tt;
     SentenceTransformer_encode := λ _ texts prompt_arg _,
       Ok (Tensor
             match texts with
             | TStr s => Nest [Num (text_length (VStr s) + text_length prompt_arg)]
             | TList l =>
                 Nest (map (λ v, Nest [Num (text_length v + text_length prompt_arg)]) l)
             end);
     CrossEncoder := λ _ _, Ok tt;
     CrossEncoder_predict := λ _ sentences _,
       Ok (Tensor (Nest (map (λ s, Num (Z.of_nat (length s))) sentences)));
     OpenAIEmbeddings := λ _ _ _ _, Ok tt;
     embed_documents_api := λ _ chunk _, Ok (map (λ v, [text_length v]) chunk);
     float32 := λ x, x;
     str_other := demo_str |}.

Definition nowhere : string → bool := λ _, false.

(** A bare base instance with the given prompt and encode options. *)
Definition demo_base (prompt_arg : pyval) (ek : bag) : BaseModel :=
  {| model_name_or_path := VStr "m";
     max_seq_length := VInt 512;
     model_kwargs := {["trust_remote_code" := VBool true]};
     config_kwargs := {["trust_remote_code" := VBool true]};
     encode_kwargs := <["convert_to_tensor" := VBool true]> ek;
     prompt := prompt_arg;
     revision := VStr "master" |}.

Definition demo_remote (size : pyval) : APIEmbeddingModel unit :=
  {| api_base := demo_base (VStr "") {["batch_size" := size]};
     model_name := VStr "m";
     openai_api_base := VNone;
     openai_api_key := VNone;
     dimensions := VNone;
     api_model := tt;
     batch_size := size |}.

Definition demo_bi (prompt_arg : pyval) : SentenceTransformerModel unit :=
  {| st_base := demo_base prompt_arg ∅; st_model := tt |}.

Definition demo_cross (prompt_arg : pyval) : CrossEncoderModel unit :=
  {| ce_base := demo_base prompt_arg ∅; ce_model := tt |}.

Definition demo : world unit unit unit unit unit Z := demo_world nowhere.

(** The bi-encoder that [load] builds in [demo] from [path], a revision
    [master] and an empty bag. *)
Definition demo_loaded (path : string) : adapter unit unit unit :=
  Bi {| st_base :=
          {| model_name_or_path := VStr path;
             max_seq_length := VInt 512;
             model_kwargs := {["trust_remote_code" := VBool true]};
             config_kwargs := {["trust_remote_code" := VBool true]};
             encode_kwargs := {["convert_to_tensor" := VBool true]};
             prompt := VStr "";
             revision := VStr "master" |};
        st_model := tt |}.

(** The cross-encoder that [load] builds in [demo] from [path], a revision
    [master] and an empty bag. *)
Definition demo_loaded_cross (path : string) : adapter unit unit unit :=
  Cross {| ce_base :=
             {| model_name_or_path := VStr path;
                max_seq_length := VInt 512;
                model_kwargs := {["trust_remote_code" := VBool true]};
                config_kwargs := {["trust_remote_code" := VBool true]};
                encode_kwargs := {["convert_to_tensor" := VBool true]};
                prompt := VStr "";
                revision := VStr "master" |};
           ce_model := tt |}.

(** The remote adapter that [load] builds in [demo] from a bag that holds
    the model name only. *)
Definition demo_loaded_remote (name : string) : adapter unit unit unit :=
  Remote {| api_base :=
              {| model_name_or_path := VStr name;
                 max_seq_length := VInt 512;
                 model_kwargs := {["trust_remote_code" := VBool true]};
                 config_kwargs := {["trust_remote_code" := VBool true]};
                 encode_kwargs := {["convert_to_tensor" := VBool true]};
                 prompt := VStr "";
                 revision := VStr "master" |};
            model_name := VStr name;
            openai_api_base := VNone;
            openai_api_key := VNone;
            dimensions := VNone;
            api_model := tt;
            batch_size := VInt 10 |}.

(** [demo] with every path on disk. *)
Definition demo_on_disk : world unit unit unit unit unit Z :=
  demo_world (λ _, true).

(** [demo] with a remote service that refuses a chunk starting with the
    empty text. *)
Definition demo_refusing : world unit unit unit unit unit Z :=
  {| os_path_exists := os_path_exists demo;
     download_model := download_model demo;
     HubType_MODELSCOPE := HubType_MODELSCOPE demo;
     SentenceTransformer := SentenceTransformer demo;
     models_Transformer := models_Transformer demo;
     get_word_embedding_dimension := get_word_embedding_dimension demo;
     models_Pooling := models_Pooling demo;
     SentenceTransformer_modules := SentenceTransformer_modules demo;
     set_max_seq_length := set_max_seq_length demo;
     SentenceTransformer_encode := SentenceTransformer_encode demo;
     CrossEncoder := CrossEncoder demo;
     CrossEncoder_predict := CrossEncoder_predict demo;
     OpenAIEmbeddings := OpenAIEmbeddings demo;
     embed_documents_api := λ client chunk size,
       match chunk with
       | VStr EmptyString :: _ => Raise (ExternalError "bad request")
       | _ => embed_documents_api demo client chunk size
       end;
     float32 := float32 demo;
     str_other := str_other demo |}.

(** A bi-encoder whose stored encode options hold [extra] as well. *)
Definition demo_bi_with (extra : bag) : SentenceTransformerModel unit :=
  {| st_base := demo_base (VStr "") extra; st_model := tt |}.

(** The cross-encoder that [load] builds in [demo] from the identifier
    [org/reranker] on another hub, with no revision, a prompt and a maximal
    sequence length of 256. *)
Definition demo_loaded_reranker : adapter unit unit unit :=
  Cross {| ce_base :=
             {| model_name_or_path := VStr "org/reranker";
                max_seq_length := VInt 256;
                model_kwargs := {["trust_remote_code" := VBool true]};
                config_kwargs := {["trust_remote_code" := VBool true]};
                encode_kwargs := {["convert_to_tensor" := VBool true]};
                prompt := VStr "query: ";
                revision := VNone |};
           ce_model := tt |}.

(** The instance after a sequence of [encode] calls, each given by its
    texts, prompt and extra keyword options. *)
Fixpoint encode_calls {STModel Transformer Pooling CEModel Client float}
    (w : world STModel Transformer Pooling CEModel Client float)
    (self : SentenceTransformerModel STModel)
    (calls : list (texts_arg * pyval * bag))
  : SentenceTransformerModel STModel :=
  match calls with
  | [] => self
  | c :: calls' =>
      encode_calls w (SentenceTransformerModel_encode w self c.1.1 c.1.2 c.2).1 calls'
  end.

(** The instance after a sequence of [predict] calls, each given by its
    sentences and extra keyword options. *)
Fixpoint predict_calls {STModel Transformer Pooling CEModel Client float}
    (w : world STModel Transformer Pooling CEModel Client float)
    (self : CrossEncoderModel CEModel)
    (calls : list (list (list pyval) * bag))
  : CrossEncoderModel CEModel :=
  match calls with
  | [] => self
  | c :: calls' =>
      predict_calls w (CrossEncoderModel_predict w self c.1 c.2).1 calls'
  end.

(** A key that is none of the listed ones. *)
Ltac not_in_list :=
  rewrite !not_elem_of_cons; repeat split; try done; apply not_elem_of_nil.

(** Unfold a computation down to its log and outcome. *)
Ltac run_act :=
  unfold mbind, act_bind, call, pure, mret, act_ret; simpl;
  repeat case_match; simpl; try done.

(** * Properties *)

(** ** The computation monad *)

Lemma act_bind_ok {A B} (m : act A) (f : A → act B) (b : B) :
  (m ≫= f).2 = Ok b → ∃ a, m.2 = Ok a ∧ (f a).2 = Ok b.
Proof.
  unfold mbind, act_bind. destruct m as [t [a|e]]; simpl; [eauto | discriminate].
Qed.

Lemma act_bind_call {A B} (ev : event) (o : outcome A) (f : A → act B) :
  call ev o ≫= f =
  match o with
  | Ok a => (ev :: (f a).1, (f a).2)
  | Raise e => ([ev], Raise e)
  end.
Proof. unfold mbind, act_bind, call. destruct o; reflexivity. Qed.

Lemma act_bind_pure {A B} (o : outcome A) (f : A → act B) :
  pure o ≫= f =
  match o with
  | Ok a => f a
  | Raise e => ([], Raise e)
  end.
Proof.
  unfold mbind, act_bind, pure. destruct o; simpl; [|reflexivity].
  by destruct (f a).
Qed.

Lemma act_bind_ret {A B} (a : A) (f : A → act B) : mret a ≫= f = f a.
Proof. unfold mbind, act_bind, mret, act_ret. simpl. by destruct (f a). Qed.

Lemma act_bind_trace {A B} (m : act A) (f : A → act B) :
  (m ≫= f).1 = m.1 ++ match m.2 with Ok a => (f a).1 | Raise _ => [] end.
Proof.
  unfold mbind, act_bind. destruct m as [t [a|e]]; simpl; [done|].
  by rewrite app_nil_r.
Qed.

(** ** Option bags *)

Lemma dict_update_lookup_new (d kwargs : bag) k v :
  kwargs !! k = Some v → dict_update d kwargs !! k = Some v.
Proof. intros H. unfold dict_update. by apply lookup_union_Some_l. Qed.

Lemma dict_update_lookup_old (d kwargs : bag) k :
  kwargs !! k = None → dict_update d kwargs !! k = d !! k.
Proof. intros H. unfold dict_update. by apply lookup_union_r. Qed.

Lemma dict_update_empty (d : bag) : dict_update d ∅ = d.
Proof. unfold dict_update. apply (left_id_L ∅ (∪)). Qed.

Lemma group_delete kw k k' : k ≠ k' → group (delete k kw) k' = group kw k'.
Proof. intros H. unfold group. by rewrite lookup_delete_ne. Qed.

(** ** BaseModel.__init__ *)

Lemma groups_from_flags kw b : groups_from kw b → forced_flags b.
Proof.
  intros (Hm & Hc & He). unfold forced_flags.
  rewrite Hm, Hc, He. by rewrite !lookup_insert_eq.
Qed.

Lemma BaseModel_init_groups p kw b :
  BaseModel_init p kw = Ok b → groups_from kw b.
Proof.
  unfold BaseModel_init, groups_from, group, dict_get_default.
  destruct (kw !! "model_kwargs") as [[]|]; simpl; try discriminate;
  destruct (kw !! "config_kwargs") as [[]|]; simpl; try discriminate;
  destruct (kw !! "encode_kwargs") as [[]|]; simpl; try discriminate;
  intros [= <-]; simpl; done.
Qed.

Lemma BaseModel_init_total p kw :
  groups_ok kw = true → ∃ b, BaseModel_init p kw = Ok b.
Proof.
  unfold groups_ok, group_ok, BaseModel_init, dict_get_default.
  destruct (kw !! "model_kwargs") as [[]|]; simpl; try discriminate;
  destruct (kw !! "config_kwargs") as [[]|]; simpl; try discriminate;
  destruct (kw !! "encode_kwargs") as [[]|]; simpl; try discriminate;
  intros _; eauto.
Qed.

Lemma BaseModel_init_fields p kw b :
  BaseModel_init p kw = Ok b →
  model_name_or_path b = p
  ∧ max_seq_length b = dict_get_default kw "max_seq_length" (VInt 512)
  ∧ prompt b = dict_get_default kw "prompt" (VStr "")
  ∧ revision b = dict_get_default kw "revision" (VStr "master").
Proof.
  unfold BaseModel_init.
  destruct (setitem (dict_get_default kw "model_kwargs" _) _ _); simpl; try discriminate.
  destruct (setitem (dict_get_default kw "config_kwargs" _) _ _); simpl; try discriminate.
  destruct (setitem (dict_get_default kw "encode_kwargs" _) _ _); simpl; try discriminate.
  intros [= <-]. simpl. done.
Qed.

(** ** Chunks *)

Lemma chunks_from_concat {A} fuel size (l : list A) :
  (0 < size)%nat → (length l ≤ fuel)%nat → concat (chunks_from fuel size l) = l.
Proof.
  intros Hs. revert l. induction fuel as [|fuel IH]; intros l Hl.
  - destruct l; [done | simpl in Hl; lia].
  - destruct l as [|x l]; [done|].
    cbn [chunks_from concat]. rewrite IH, take_drop; [done|].
    rewrite length_drop. simpl in *. lia.
Qed.

Lemma chunks_from_length {A} fuel size (l : list A) :
  (0 < size)%nat → (length l ≤ fuel)%nat →
  length (chunks_from fuel size l) = ((length l + size - 1) / size)%nat.
Proof.
  intros Hs. revert l. induction fuel as [|fuel IH]; intros l Hl.
  - destruct l; [|simpl in Hl; lia]. simpl.
    symmetry. apply Nat.div_small. lia.
  - destruct l as [|x l].
    + simpl. symmetry. apply Nat.div_small. lia.
    + cbn [chunks_from length]. rewrite IH by (rewrite length_drop; simpl in *; lia).
      rewrite length_drop. cbn [length].
      destruct (decide (size ≤ S (length l))%nat) as [Hle|Hgt].
      * replace (S (length l) + size - 1)%nat
          with ((S (length l) - size + size - 1) + 1 * size)%nat by lia.
        rewrite Nat.div_add by lia. lia.
      * replace (S (length l) - size)%nat with 0%nat by lia.
        rewrite (Nat.div_small (0 + size - 1)) by lia.
        apply (Nat.div_unique _ _ 1 (length l)); lia.
Qed.

Lemma chunks_from_lookup {A} fuel size (l : list A) k :
  (0 < size)%nat → (length l ≤ fuel)%nat → (k * size < length l)%nat →
  chunks_from fuel size l !! k = Some (take size (drop (k * size) l)).
Proof.
  intros Hs. revert l k. induction fuel as [|fuel IH]; intros l k Hl Hk.
  - lia.
  - destruct l as [|x l]; [simpl in Hk; lia|].
    destruct k as [|k]; [done|].
    cbn [chunks_from]. rewrite lookup_cons_ne_0 by done. simpl pred.
    rewrite IH.
    + rewrite drop_drop. repeat f_equal; lia.
    + rewrite length_drop. simpl in *. lia.
    + rewrite length_drop. simpl in *. lia.
Qed.

(** ** Nested lists *)

Lemma first_item_depth {float} (v r : nested float) :
  first_item v = Ok r → (depth r < depth v)%nat.
Proof.
  destruct v as [x|[|y l]]; simpl; try discriminate.
  intros [= ->]. lia.
Qed.

Lemma first_item_differs {float} (v r : nested float) :
  first_item v = Ok r → v ≠ r.
Proof. intros H%first_item_depth ->. lia. Qed.

Section Construction.
Context {STModel Transformer Pooling CEModel Client float : Type}.
Variable w : world STModel Transformer Pooling CEModel Client float.

(** ** The constructors run BaseModel.__init__ *)

Lemma SentenceTransformerModel_init_base p kw m :
  (SentenceTransformerModel_init w p kw).2 = Ok m →
  BaseModel_init p (delete "pooling_mode" kw) = Ok (st_base m).
Proof.
  unfold SentenceTransformerModel_init. rewrite act_bind_pure.
  destruct (BaseModel_init p (delete "pooling_mode" kw)) as [b|e]; [|discriminate].
  cbv beta iota. intros H.
  destruct (act_bind_ok _ _ _ H) as (model & _ & H1).
  destruct (act_bind_ok _ _ _ H1) as (model' & _ & H2).
  injection H2 as <-. reflexivity.
Qed.

Lemma CrossEncoderModel_init_base p kw m :
  (CrossEncoderModel_init w p kw).2 = Ok m →
  BaseModel_init p kw = Ok (ce_base m).
Proof.
  unfold CrossEncoderModel_init. rewrite act_bind_pure.
  destruct (BaseModel_init p kw) as [b|e]; [|discriminate].
  cbv beta iota. intros H.
  destruct (act_bind_ok _ _ _ H) as (model & _ & H1).
  injection H1 as <-. reflexivity.
Qed.

Lemma APIEmbeddingModel_init_base kw m :
  (APIEmbeddingModel_init w kw).2 = Ok m →
  BaseModel_init (dict_get kw "model_name") kw = Ok (api_base m)
  ∧ kw !! "model_name_or_path" = None.
Proof.
  unfold APIEmbeddingModel_init. intros H.
  destruct (act_bind_ok _ _ _ H) as (model & _ & H1).
  rewrite act_bind_pure in H1.
  case_bool_decide as Hdup; [discriminate|].
  destruct (BaseModel_init _ kw) as [b|e]; [|discriminate].
  injection H1 as <-. simpl. split; [done|].
  by apply eq_None_not_Some.
Qed.

(** C7.  Whichever of the three adapters is constructed, and whatever
    option groups the caller supplied, a construction that returns has
    stored model and config option groups that hold [trust_remote_code =
    True] and an encode option group that holds [convert_to_tensor = True]:
    each stored group is the caller's group (empty when absent) with the
    forced flag written over any value the caller gave that key.
    [BaseModel.__init__] itself returns for every bag whose three groups
    are absent or dicts. *)
Theorem construction_forces_flags :
  (∀ p kw m, (SentenceTransformerModel_init w p kw).2 = Ok m →
     forced_flags (st_base m) ∧ groups_from kw (st_base m))
  ∧ (∀ p kw m, (CrossEncoderModel_init w p kw).2 = Ok m →
     forced_flags (ce_base m) ∧ groups_from kw (ce_base m))
  ∧ (∀ kw m, (APIEmbeddingModel_init w kw).2 = Ok m →
     forced_flags (api_base m) ∧ groups_from kw (api_base m))
  ∧ (∀ p kw, groups_ok kw = true →
     ∃ b, BaseModel_init p kw = Ok b ∧ forced_flags b ∧ groups_from kw b).
Proof.
  split; [|split; [|split]].
  - intros p kw m H%SentenceTransformerModel_init_base%BaseModel_init_groups.
    assert (groups_from kw (st_base m)) as Hg.
    { destruct H as (?&?&?). unfold groups_from. by rewrite !group_delete in *. }
    split; [by apply groups_from_flags in Hg | done].
  - intros p kw m H%CrossEncoderModel_init_base%BaseModel_init_groups.
    split; [by apply groups_from_flags in H | done].
  - intros kw m [H%BaseModel_init_groups _]%APIEmbeddingModel_init_base.
    split; [by apply groups_from_flags in H | done].
  - intros p kw H. destruct (BaseModel_init_total p kw H) as [b Hb].
    exists b. pose proof (BaseModel_init_groups _ _ _ Hb) as Hg.
    split; [done|]. split; [by apply groups_from_flags in Hg | done].
Qed.

(** ** The log of a construction *)

Lemma APIEmbeddingModel_init_trace kw :
  (APIEmbeddingModel_init w kw).1 =
  [EvOpenAIEmbeddings (dict_get kw "model_name") (dict_get kw "api_base")
     (dict_get kw "api_key") (dict_get kw "dimensions")].
Proof. unfold APIEmbeddingModel_init. run_act. Qed.

Lemma SentenceTransformerModel_init_downloads p kw :
  downloads (SentenceTransformerModel_init w p kw).1 = 0%nat.
Proof. unfold SentenceTransformerModel_init, downloads. run_act. Qed.

Lemma CrossEncoderModel_init_downloads p kw :
  downloads (CrossEncoderModel_init w p kw).1 = 0%nat.
Proof. unfold CrossEncoderModel_init, downloads. run_act. Qed.

Lemma downloads_app t1 t2 : downloads (t1 ++ t2) = (downloads t1 + downloads t2)%nat.
Proof. unfold downloads. by rewrite filter_app, length_app. Qed.

Lemma local_adapter_downloads ce p rev kw :
  downloads (local_adapter w ce p rev kw).1 = 0%nat.
Proof.
  unfold local_adapter. destruct ce; rewrite act_bind_trace, downloads_app.
  - rewrite CrossEncoderModel_init_downloads. by case_match.
  - rewrite SentenceTransformerModel_init_downloads. by case_match.
Qed.

Lemma local_adapter_path ce p rev kw a :
  (local_adapter w ce p rev kw).2 = Ok a →
  model_name_or_path (base_of a) = VStr p
  ∧ match a with
    | Cross _ => ce = true
    | Bi _ => ce = false
    | Remote _ => False
    end.
Proof.
  unfold local_adapter. destruct ce; intros H.
  - destruct (act_bind_ok _ _ _ H) as (m & Hm & Hr). injection Hr as <-.
    apply CrossEncoderModel_init_base, BaseModel_init_fields in Hm.
    destruct Hm as (Hp & _). by split.
  - destruct (act_bind_ok _ _ _ H) as (m & Hm & Hr). injection Hr as <-.
    apply SentenceTransformerModel_init_base, BaseModel_init_fields in Hm.
    destruct Hm as (Hp & _). by split.
Qed.

(** The factory once the remote test has failed. *)
Lemma load_local p ce hub rev kw :
  truthy (dict_get kw "model_name") = false →
  EmbeddingModel_load w p ce hub rev kw =
  (if negb (os_path_exists w p) && String.eqb hub (HubType_MODELSCOPE w)
   then call (EvDownload p rev) (download_model w p rev)
   else mret p) ≫= λ p', local_adapter w ce p' rev kw.
Proof.
  intros H. unfold EmbeddingModel_load, local_adapter. rewrite H.
  f_equal.
Qed.

(** ** EmbeddingModel.load *)

(** C1.  When the option bag holds a truthy [model_name], whatever the
    path, the cross-encoder flag, the hub and the revision are, [load] is
    the construction of an [APIEmbeddingModel] from the bag: the only
    collaborator called is the remote client's constructor, a returned
    adapter is the remote one (never a bi-encoder or cross-encoder), and
    it is returned as soon as the client constructor accepts and the
    option groups of the bag are usable (the bag of [load] cannot name
    [model_name_or_path], which is a parameter of [load]). *)
Theorem load_prefers_remote p ce hub rev kwargs :
  truthy (dict_get kwargs "model_name") = true →
  let run := EmbeddingModel_load w p ce hub rev kwargs in
  run = fmap_act Remote (APIEmbeddingModel_init w kwargs)
  ∧ run.1 =
      [EvOpenAIEmbeddings (dict_get kwargs "model_name")
         (dict_get kwargs "api_base") (dict_get kwargs "api_key")
         (dict_get kwargs "dimensions")]
  ∧ (∀ a, run.2 = Ok a → ∃ m, a = Remote m)
  ∧ (∀ client,
       OpenAIEmbeddings w (dict_get kwargs "model_name")
         (dict_get kwargs "api_base") (dict_get kwargs "api_key")
         (dict_get kwargs "dimensions") = Ok client →
       kwargs !! "model_name_or_path" = None →
       groups_ok kwargs = true →
       ∃ m, run.2 = Ok (Remote m) ∧ api_model m = client
            ∧ model_name m = dict_get kwargs "model_name").
Proof.
  intros Hname run.
  assert (run = fmap_act Remote (APIEmbeddingModel_init w kwargs)) as Hrun.
  { unfold run, EmbeddingModel_load. by rewrite Hname. }
  split; [done|]. rewrite Hrun. unfold fmap_act. split; [|split].
  - rewrite act_bind_trace, APIEmbeddingModel_init_trace. by case_match.
  - intros a H. destruct (act_bind_ok _ _ _ H) as (m & _ & Hr).
    injection Hr as <-. eauto.
  - intros client Hc Hdup Hg.
    destruct (BaseModel_init_total (dict_get kwargs "model_name") kwargs Hg)
      as [b Hb].
    unfold APIEmbeddingModel_init. rewrite Hc, act_bind_call.
    rewrite bool_decide_eq_false_2 by (rewrite Hdup; by intros [? ?]).
    rewrite Hb, act_bind_pure. simpl. eauto.
Qed.

(** C2.  With no remote model name and a path that does not exist on
    local storage: if the hub is ModelScope, the log of [load] starts with
    the one download call, followed by the construction of the local
    adapter from the path that the download returned (nothing more when
    the download raised), so download is called exactly once and a
    returned adapter carries the downloaded path; with any other hub
    [load] is the construction of the local adapter from the original
    identifier, and download is never called. *)
Theorem load_download_trigger p ce hub rev kwargs :
  truthy (dict_get kwargs "model_name") = false →
  os_path_exists w p = false →
  let run := EmbeddingModel_load w p ce hub rev kwargs in
  (hub = HubType_MODELSCOPE w →
     run.1 = EvDownload p rev ::
             match download_model w p rev with
             | Ok p' => (local_adapter w ce p' rev kwargs).1
             | Raise _ => []
             end
     ∧ run.2 =
         match download_model w p rev with
         | Ok p' => (local_adapter w ce p' rev kwargs).2
         | Raise e => Raise e
         end
     ∧ downloads run.1 = 1%nat
     ∧ (∀ p' a, download_model w p rev = Ok p' → run.2 = Ok a →
          model_name_or_path (base_of a) = VStr p'))
  ∧ (hub ≠ HubType_MODELSCOPE w →
     run = local_adapter w ce p rev kwargs
     ∧ downloads run.1 = 0%nat
     ∧ (∀ a, run.2 = Ok a → model_name_or_path (base_of a) = VStr p)).
Proof.
  intros Hname Hdisk run. unfold run. rewrite load_local by done.
  rewrite Hdisk. split.
  - intros ->. rewrite String.eqb_refl. cbn [negb andb]. cbv iota.
    rewrite act_bind_call.
    destruct (download_model w p rev) as [p'|e]; cbn [fst snd].
    + split; [done|]. split; [done|]. split.
      * change (downloads (EvDownload p rev :: (local_adapter w ce p' rev kwargs).1))
          with (S (downloads (local_adapter w ce p' rev kwargs).1)).
        by rewrite local_adapter_downloads.
      * intros ? a [= <-] Ha. by apply local_adapter_path in Ha as [? _].
    + done.
  - intros Hne. apply String.eqb_neq in Hne. rewrite Hne. cbn [negb andb]. cbv iota.
    rewrite act_bind_ret. split; [done|]. split; [apply local_adapter_downloads|].
    intros a Ha. by apply local_adapter_path in Ha as [? _].
Qed.

(** C8, as the code has it.  [load] with an empty identifier and no remote
    model name checks nothing itself.  The empty string is resolved like
    any identifier (downloaded when it does not exist locally and the hub
    is ModelScope) and handed to the local adapter's constructor: [load]
    returns whatever adapter that construction returns, and when it raises,
    the exception is the one raised by the download or by that
    construction. *)
Theorem load_does_not_validate_identifier ce hub rev kwargs :
  truthy (dict_get kwargs "model_name") = false →
  let resolved :=
    if negb (os_path_exists w "") && String.eqb hub (HubType_MODELSCOPE w)
    then download_model w "" rev else Ok ""%string in
  let run := EmbeddingModel_load w "" ce hub rev kwargs in
  (∀ p' a, resolved = Ok p' →
     (local_adapter w ce p' rev kwargs).2 = Ok a → run.2 = Ok a)
  ∧ (∀ e, run.2 = Raise e →
       resolved = Raise e
       ∨ ∃ p', resolved = Ok p' ∧ (local_adapter w ce p' rev kwargs).2 = Raise e).
Proof.
  intros Hname resolved run. unfold run, resolved. rewrite load_local by done.
  destruct (negb (os_path_exists w "") && String.eqb hub (HubType_MODELSCOPE w));
    cbv iota.
  - rewrite act_bind_call. destruct (download_model w "" rev) as [p'|e]; simpl.
    + split; [by intros ? ? [= <-] | eauto].
    + split; [done | intros ? [= <-]; eauto].
  - rewrite act_bind_ret. split; [by intros ? ? [= <-] | eauto].
Qed.

End Construction.

Section Methods.
Context {STModel Transformer Pooling CEModel Client float : Type}.
Variable w : world STModel Transformer Pooling CEModel Client float.

(** ** APIEmbeddingModel.encode *)

(** The loop, started at index [i] with [acc] collected so far, makes one
    call per chunk of what is left of [texts]. *)
Lemma embed_batches_chunks (self : APIEmbeddingModel Client) texts size fuel i acc :
  0 < size → 0 ≤ i →
  (∀ c, c ∈ chunks_from fuel (Z.to_nat size) (drop (Z.to_nat i) texts) →
        ∃ r, embed_documents_api w (api_model self) c (batch_size self) = Ok r) →
  embed_batches w self texts size
    (range_from fuel i (Z.of_nat (length texts)) size) acc =
  (map (λ c, EvEmbedDocuments c (batch_size self))
       (chunks_from fuel (Z.to_nat size) (drop (Z.to_nat i) texts)),
   Ok (acc ++ concat (map (response w self)
         (chunks_from fuel (Z.to_nat size) (drop (Z.to_nat i) texts))))).
Proof.
  intros Hs. revert i acc. induction fuel as [|fuel IH]; intros i acc Hi Hok.
  - simpl. by rewrite app_nil_r.
  - cbn [range_from]. destruct (Z.ltb_spec i (Z.of_nat (length texts))) as [Hlt|Hge].
    + destruct (drop (Z.to_nat i) texts) as [|x rest] eqn:Hdrop.
      { apply (f_equal length) in Hdrop. rewrite length_drop in Hdrop.
        simpl in Hdrop. lia. }
      cbn [chunks_from embed_batches] in *. rewrite <- Hdrop in *.
      assert (py_slice texts i (i + size)
              = take (Z.to_nat size) (drop (Z.to_nat i) texts)) as Hslice.
      { unfold py_slice. do 2 f_equal. lia. }
      rewrite Hslice.
      destruct (Hok (take (Z.to_nat size) (drop (Z.to_nat i) texts))) as [r Hr].
      { apply list_elem_of_here. }
      rewrite act_bind_call, Hr.
      assert (drop (Z.to_nat size) (drop (Z.to_nat i) texts)
              = drop (Z.to_nat (i + size)) texts) as Hnext.
      { rewrite drop_drop. f_equal. lia. }
      rewrite Hnext in *.
      rewrite IH; [| lia |].
      * cbn [map concat fst snd]. unfold response at 2. rewrite Hr.
        by rewrite <- app_assoc.
      * intros c Hc. apply Hok. by apply list_elem_of_further.
    + rewrite drop_ge by lia. simpl. by rewrite app_nil_r.
Qed.

(** C3.  With an integer batch size [size > 0], a list of [N] texts and a
    client that answers every chunk, [encode] leaves the instance as it
    was and calls the client's batch-embed operation once per contiguous
    chunk [texts[0:size]], [texts[size:2*size]], ..., in that order and
    with the batch size as chunk-size hint: that is [ceil(N/size)] calls,
    the chunks put end to end are the input list, and the result is the
    tensor of the answers appended in chunk order.  With [size = 2] and
    five texts the three calls are on [0:2], [2:4] and [4:5]. *)
Theorem remote_encode_batches (self : APIEmbeddingModel Client) texts kwargs size :
  batch_size self = VInt size → 0 < size →
  (∀ c, c ∈ chunks (Z.to_nat size) texts →
        ∃ r, embed_documents_api w (api_model self) c (VInt size) = Ok r) →
  let run := APIEmbeddingModel_encode w self (TList texts) kwargs in
  run.1 = self
  ∧ run.2.1 = map (λ c, EvEmbedDocuments c (VInt size)) (chunks (Z.to_nat size) texts)
  ∧ length run.2.1 = ((length texts + Z.to_nat size - 1) / Z.to_nat size)%nat
  ∧ (∀ k : nat, (k * Z.to_nat size < length texts)%nat →
       chunks (Z.to_nat size) texts !! k
       = Some (py_slice texts (Z.of_nat k * size) (Z.of_nat k * size + size)))
  ∧ concat (chunks (Z.to_nat size) texts) = texts
  ∧ run.2.2
    = torch_tensor w (concat (map (response w self) (chunks (Z.to_nat size) texts)))
  ∧ (∀ t0 t1 t2 t3 t4, texts = [t0; t1; t2; t3; t4] → size = 2 →
       run.2.1 = [EvEmbedDocuments [t0; t1] (VInt 2);
                  EvEmbedDocuments [t2; t3] (VInt 2);
                  EvEmbedDocuments [t4] (VInt 2)]).
Proof.
  intros Hb Hs Hok run.
  assert (run.2 =
    (map (λ c, EvEmbedDocuments c (VInt size)) (chunks (Z.to_nat size) texts),
     torch_tensor w (concat (map (response w self) (chunks (Z.to_nat size) texts)))))
    as Hrun.
  { unfold run, APIEmbeddingModel_encode. cbn [snd]. rewrite Hb.
    cbn [as_index]. rewrite act_bind_pure.
    destruct (Z.eqb_spec size 0) as [->|_]; [lia|].
    unfold py_range. destruct (Z.ltb_spec 0 size) as [_|]; [|lia].
    rewrite Nat2Z.id.
    pose proof (embed_batches_chunks self texts size (length texts) 0 []) as E.
    rewrite Hb in E. change (drop (Z.to_nat 0) texts) with texts in E.
    fold (chunks (Z.to_nat size) texts) in E.
    rewrite E by (done || lia).
    unfold mbind, act_bind, pure. cbn [fst snd]. by rewrite app_nil_r. }
  split; [done|]. rewrite Hrun. cbn [fst snd].
  split; [done|]. split.
  { rewrite length_map. apply chunks_from_length; lia. }
  split.
  { intros k Hk. unfold chunks. rewrite chunks_from_lookup by lia.
    unfold py_slice. do 3 f_equal; lia. }
  split; [apply chunks_from_concat; lia|].
  split; [done|]. by intros t0 t1 t2 t3 t4 -> ->.
Qed.

(** ** CrossEncoderModel.predict *)

Lemma unwrap_triple_ok (self : CrossEncoderModel CEModel) p t :
  prompt (ce_base self) = VStr p → is_Some (doc_text t.1.2) →
  unwrap_triple self (triple_sentence t) = Ok (scored_pair p t).
Proof.
  intros Hp [d Hd]. destruct t as [[q docs] i]. simpl in *.
  unfold scored_pair. simpl. rewrite Hd, Hp. simpl.
  destruct docs; simpl in *; try (injection Hd as <-; done).
  by rewrite Hd.
Qed.

Lemma mapM_unwrap_triples (self : CrossEncoderModel CEModel) p ts :
  prompt (ce_base self) = VStr p →
  Forall (λ t, is_Some (doc_text t.1.2)) ts →
  mapM (unwrap_triple self) (map triple_sentence ts) = Ok (map (scored_pair p) ts).
Proof.
  intros Hp. induction 1 as [|t ts Ht _ IH]; [done|].
  cbn [map mapM]. rewrite (unwrap_triple_ok self p t Hp Ht).
  cbn [mbind outcome_bind]. by rewrite IH.
Qed.

(** A sentence that is not of length three stops the loop over triples. *)
Lemma mapM_unwrap_mixed (self : CrossEncoderModel CEModel)
    (l : list (list pyval)) s :
  s ∈ l → length s ≠ 3%nat → ∃ e, mapM (unwrap_triple self) l = Raise e.
Proof.
  intros Hin Hs. induction l as [|x l IH]; [by apply elem_of_nil in Hin|].
  cbn [mapM]. destruct (unwrap_triple self x) as [y|e] eqn:Hx; [|by eexists].
  apply elem_of_cons in Hin as [->|Hin].
  - destruct x as [|?[|?[|?[|]]]]; simpl in *; done.
  - destruct (IH Hin) as [e He]. rewrite He. by eexists.
Qed.

(** C4.  On a non-empty list of (query, document, instruction) triples,
    with a string prompt and string queries, [predict] calls the underlying
    cross-encoder exactly once, on the pairs (prompt + query, document) in
    input order, a document record being replaced by its [text] field; on
    a non-empty list of two-element pairs the underlying call receives the
    list as given.  In both cases it receives the merged encode options. *)
Theorem predict_triples_and_pairs (self : CrossEncoderModel CEModel) kwargs :
  let ek := dict_update (encode_kwargs (ce_base self)) kwargs in
  let scored sentences :=
    call (EvPredict sentences ek)
         (CrossEncoder_predict w (ce_model self) sentences ek)
    ≫= λ embeddings, pure (assert_tensor embeddings) in
  (∀ p ts,
     prompt (ce_base self) = VStr p → ts ≠ [] →
     Forall (λ t, is_Some (doc_text t.1.2)) ts →
     (CrossEncoderModel_predict w self (map triple_sentence ts) kwargs).2
     = scored (map (scored_pair p) ts))
  ∧ (∀ sentences,
       sentences ≠ [] → Forall (λ s, length s = 2%nat) sentences →
       (CrossEncoderModel_predict w self sentences kwargs).2 = scored sentences)
  ∧ (∀ sentences, (scored sentences).1 = [EvPredict sentences ek]).
Proof.
  intros ek scored. split; [|split].
  - intros p ts Hp Hne Hdocs. unfold CrossEncoderModel_predict. cbn [snd].
    destruct ts as [|t ts]; [done|].
    rewrite (mapM_unwrap_triples self p (t :: ts) Hp Hdocs).
    cbn [map triple_sentence length Nat.eqb]. by rewrite act_bind_pure.
  - intros sentences Hne Hall. unfold CrossEncoderModel_predict. cbn [snd].
    destruct sentences as [|first rest]; [done|].
    apply Forall_cons in Hall as [-> _]. cbn [Nat.eqb].
    by rewrite act_bind_pure.
  - intros sentences. unfold scored. rewrite act_bind_call. by case_match.
Qed.

(** C10.  [predict] decides on the first sentence alone.  An empty list
    raises IndexError before any call.  When the first sentence has
    length three, every sentence goes through the unpacking of a triple
    and the result is scored; when it has any other length, the list is
    scored as given, whatever the later sentences are.  So in a list that
    starts with a triple, a later sentence of another length is still
    unpacked as a triple, which raises before the underlying model is
    called. *)
Theorem predict_branch_on_first (self : CrossEncoderModel CEModel) kwargs :
  let ek := dict_update (encode_kwargs (ce_base self)) kwargs in
  let scored sentences :=
    call (EvPredict sentences ek)
         (CrossEncoder_predict w (ce_model self) sentences ek)
    ≫= λ embeddings, pure (assert_tensor embeddings) in
  (CrossEncoderModel_predict w self [] kwargs).2 = ([], Raise IndexError)
  ∧ (∀ first rest, length first = 3%nat →
       (CrossEncoderModel_predict w self (first :: rest) kwargs).2
       = pure (mapM (unwrap_triple self) (first :: rest)) ≫= scored)
  ∧ (∀ first rest, length first ≠ 3%nat →
       (CrossEncoderModel_predict w self (first :: rest) kwargs).2
       = scored (first :: rest))
  ∧ (∀ first rest s, length first = 3%nat → s ∈ rest → length s ≠ 3%nat →
       ∃ e, (CrossEncoderModel_predict w self (first :: rest) kwargs).2
            = ([], Raise e)).
Proof.
  intros ek scored.
  assert (∀ first rest, length first = 3%nat →
       (CrossEncoderModel_predict w self (first :: rest) kwargs).2
       = pure (mapM (unwrap_triple self) (first :: rest)) ≫= scored) as Htriple.
  { intros first rest Hlen. unfold CrossEncoderModel_predict. cbn [snd].
    by rewrite Hlen. }
  split; [done|]. split; [done|]. split.
  - intros first rest Hlen. unfold CrossEncoderModel_predict. cbn [snd].
    apply Nat.eqb_neq in Hlen. rewrite Hlen. by rewrite act_bind_pure.
  - intros first rest s Hlen Hin Hs. rewrite Htriple by done.
    destruct (mapM_unwrap_mixed self (first :: rest) s) as [e He];
      [by apply list_elem_of_further | done |].
    rewrite He, act_bind_pure. by eexists.
Qed.

(** ** encode_corpus *)

Lemma normalize_doc_record doc :
  normalize_doc w (record_value doc) = Ok (VStr (normalized doc)).
Proof.
  destruct doc as [[t|] x]; unfold normalize_doc, record_value, normalized,
    dict_get_default; cbn [fst snd].
  - rewrite lookup_insert_ne by done. rewrite lookup_singleton_eq.
    by rewrite lookup_insert_eq.
  - rewrite lookup_singleton_eq. by rewrite lookup_singleton_ne.
Qed.

Lemma mapM_normalize_records docs :
  mapM (normalize_doc w) (map record_value docs)
  = Ok (map (λ doc, VStr (normalized doc)) docs).
Proof.
  induction docs as [|doc docs IH]; [done|].
  cbn [map mapM]. rewrite normalize_doc_record.
  cbn [mbind outcome_bind]. by rewrite IH.
Qed.

Lemma corpus_texts_records doc docs :
  corpus_texts w (map record_value (doc :: docs))
  = Ok (map (λ doc, VStr (normalized doc)) (doc :: docs)).
Proof.
  unfold corpus_texts. cbn [map]. cbn [record_value is_dict].
  apply (mapM_normalize_records (doc :: docs)).
Qed.

Lemma corpus_texts_strings (s : string) (rest : list pyval) :
  corpus_texts w (VStr s :: rest) = Ok (VStr s :: rest).
Proof. reflexivity. Qed.

(** One record, as the code normalises it: the fields of any dict with a
    string text and a string or missing title. *)
Lemma normalize_doc_fields d text :
  d !! "text" = Some (VStr text) →
  normalize_doc w (VDict d)
  = Ok (VStr (strip (match d !! "title" with
                     | Some (VStr title) => title
                     | Some v => str_other w v
                     | None => ""
                     end ++ " " ++ text))).
Proof.
  intros Ht. unfold normalize_doc, dict_get_default. rewrite Ht.
  destruct (d !! "title") as [[]|]; reflexivity.
Qed.

(** The remote [encode] on a list, with a positive integer batch size and
    a client that answers. *)
Lemma remote_encode_answered (self : APIEmbeddingModel Client) texts kwargs size :
  batch_size self = VInt size → 0 < size →
  (∀ c, c ∈ chunks (Z.to_nat size) texts →
        ∃ r, embed_documents_api w (api_model self) c (VInt size) = Ok r) →
  (APIEmbeddingModel_encode w self (TList texts) kwargs).2
  = (map (λ c, EvEmbedDocuments c (VInt size)) (chunks (Z.to_nat size) texts),
     torch_tensor w (concat (map (response w self) (chunks (Z.to_nat size) texts)))).
Proof.
  intros Hb Hs Hok. unfold APIEmbeddingModel_encode. cbn [snd]. rewrite Hb.
  cbn [as_index]. rewrite act_bind_pure.
  destruct (Z.eqb_spec size 0) as [->|_]; [lia|].
  unfold py_range. destruct (Z.ltb_spec 0 size) as [_|]; [|lia].
  rewrite Nat2Z.id.
  pose proof (embed_batches_chunks self texts size (length texts) 0 []) as E.
  rewrite Hb in E. change (drop (Z.to_nat 0) texts) with texts in E.
  fold (chunks (Z.to_nat size) texts) in E.
  rewrite E by (done || lia).
  unfold mbind, act_bind, pure. cbn [fst snd]. by rewrite app_nil_r.
Qed.

(** C6.  [encode_corpus] replaces every structured record by one string
    before anything is encoded: title, one space and text, trimmed of
    surrounding whitespace, and the trimmed text alone when the title is
    missing.  On a corpus of records the bi-encoder's [encode_corpus] is its
    [encode] on the list of these strings, with no prompt and no extra
    option, and the remote adapter's is its [encode] on that list: the
    bi-encoder's model is called once, on exactly these strings, and the
    remote client is called on the chunks of exactly these strings.  So a
    corpus of records is encoded as the corpus of its normal forms, for
    every adapter; in particular the record with title A and text b is
    encoded as the string "A b": same calls, same result. *)
Theorem encode_corpus_normalizes_records :
  (∀ d title text,
     d !! "title" = Some (VStr title) → d !! "text" = Some (VStr text) →
     normalize_doc w (VDict d) = Ok (VStr (strip (title ++ " " ++ text))))
  ∧ (∀ d text,
       d !! "title" = None → d !! "text" = Some (VStr text) →
       normalize_doc w (VDict d) = Ok (VStr (strip text)))
  ∧ (∀ (m : SentenceTransformerModel STModel) doc docs kwargs,
       encode_corpus w (Bi m) (map record_value (doc :: docs)) kwargs
       = prod_map Bi id
           (SentenceTransformerModel_encode w m
              (TList (map (λ doc, VStr (strip (default ""%string doc.1 ++ " " ++ doc.2)))
                        (doc :: docs)))
              VNone ∅))
  ∧ (∀ (m : APIEmbeddingModel Client) doc docs kwargs,
       encode_corpus w (Remote m) (map record_value (doc :: docs)) kwargs
       = prod_map Remote id
           (APIEmbeddingModel_encode w m
              (TList (map (λ doc, VStr (strip (default ""%string doc.1 ++ " " ++ doc.2)))
                        (doc :: docs)))
              kwargs))
  ∧ (∀ (m : SentenceTransformerModel STModel) doc docs kwargs,
       encode_kwargs (st_base m) !! "prompt" = None →
       (encode_corpus w (Bi m) (map record_value (doc :: docs)) kwargs).2.1
       = [EvEncode
            (TList (map (λ doc, VStr (strip (default ""%string doc.1 ++ " " ++ doc.2)))
                      (doc :: docs)))
            VNone (encode_kwargs (st_base m))])
  ∧ (∀ (m : APIEmbeddingModel Client) doc docs kwargs size,
       batch_size m = VInt size → 0 < size →
       (∀ c, ∃ r, embed_documents_api w (api_model m) c (VInt size) = Ok r) →
       (encode_corpus w (Remote m) (map record_value (doc :: docs)) kwargs).2.1
       = map (λ c, EvEmbedDocuments c (VInt size))
           (chunks (Z.to_nat size)
              (map (λ doc, VStr (strip (default ""%string doc.1 ++ " " ++ doc.2)))
                 (doc :: docs))))
  ∧ (∀ (self : adapter STModel CEModel Client) kwargs,
       (∀ doc docs,
          encode_corpus w self (map record_value (doc :: docs)) kwargs
          = encode_corpus w self
              (map (λ doc, VStr (normalized doc)) (doc :: docs)) kwargs)
       ∧ (∀ title text,
            normalized (Some title, text) = strip (title ++ " " ++ text))
       ∧ (∀ text, normalized (None, text) = strip text)
       ∧ encode_corpus w self
           [VDict {["title" := VStr "A"; "text" := VStr "b"]}] kwargs
         = encode_corpus w self [VStr "A b"] kwargs).
Proof.
  assert (∀ (m : SentenceTransformerModel STModel) doc docs kwargs,
       encode_corpus w (Bi m) (map record_value (doc :: docs)) kwargs
       = prod_map Bi id
           (SentenceTransformerModel_encode w m
              (TList (map (λ doc, VStr (normalized doc)) (doc :: docs)))
              VNone ∅)) as Hbi.
  { intros m doc docs kwargs. unfold encode_corpus,
      SentenceTransformerModel_encode_corpus. by rewrite corpus_texts_records. }
  assert (∀ (m : APIEmbeddingModel Client) doc docs kwargs,
       encode_corpus w (Remote m) (map record_value (doc :: docs)) kwargs
       = prod_map Remote id
           (APIEmbeddingModel_encode w m
              (TList (map (λ doc, VStr (normalized doc)) (doc :: docs)))
              kwargs)) as Hremote.
  { intros m doc docs kwargs. unfold encode_corpus,
      APIEmbeddingModel_encode_corpus. by rewrite corpus_texts_records. }
  assert (∀ (self : adapter STModel CEModel Client) kwargs doc docs,
     encode_corpus w self (map record_value (doc :: docs)) kwargs
     = encode_corpus w self (map (λ doc, VStr (normalized doc)) (doc :: docs)) kwargs)
    as Hgen.
  { intros self kwargs doc docs. unfold encode_corpus.
    destruct self as [m|m|m]; [|done|].
    - unfold SentenceTransformerModel_encode_corpus.
      rewrite corpus_texts_records. cbn [map]. by rewrite corpus_texts_strings.
    - unfold APIEmbeddingModel_encode_corpus.
      rewrite corpus_texts_records. cbn [map]. by rewrite corpus_texts_strings. }
  split; [|split; [|split; [|split; [|split; [|split]]]]].
  - intros d title text Htitle Htext.
    rewrite (normalize_doc_fields d text Htext). by rewrite Htitle.
  - intros d text Htitle Htext.
    rewrite (normalize_doc_fields d text Htext). by rewrite Htitle.
  - exact Hbi.
  - exact Hremote.
  - intros m doc docs kwargs Hp. rewrite Hbi. unfold prod_map. cbn [snd].
    unfold SentenceTransformerModel_encode. cbn [snd id].
    rewrite delete_empty, dict_update_empty.
    rewrite bool_decide_eq_false_2 by (rewrite Hp; by intros [? ?]).
    rewrite act_bind_call. by case_match.
  - intros m doc docs kwargs size Hb Hs Hok. rewrite Hremote.
    unfold prod_map. cbn [snd id].
    by rewrite (remote_encode_answered m _ kwargs size Hb Hs) by (intros; apply Hok).
  - intros self kwargs. split; [apply Hgen|]. split; [done|]. split; [done|].
    apply (Hgen self kwargs (Some "A"%string, "b"%string) []).
Qed.

(** ** encode, predict and the stored options *)

(** C9, as the code has it.  A call of the bi-encoder's [encode] stores
    its extra keyword options, [prompt_name] apart, into the instance's
    encode options, the extra options winning; a call of the
    cross-encoder's [predict] stores all of them.  The merged options
    stay on the instance: the next call without extra options leaves them
    as they are and hands them to the underlying model.  The remote
    adapter's [encode] leaves the instance unchanged. *)
Theorem encode_kwargs_persistence kwargs :
  (∀ (self : SentenceTransformerModel STModel) texts p,
     let self' := (SentenceTransformerModel_encode w self texts p kwargs).1 in
     encode_kwargs (st_base self')
       = dict_update (encode_kwargs (st_base self)) (delete "prompt_name" kwargs)
     ∧ (∀ k v, k ≠ "prompt_name"%string → kwargs !! k = Some v →
          encode_kwargs (st_base self') !! k = Some v)
     ∧ encode_kwargs (st_base self') !! "prompt_name"
         = encode_kwargs (st_base self) !! "prompt_name"
     ∧ (∀ texts' p',
          (SentenceTransformerModel_encode w self' texts' p' ∅).1 = self'
          ∧ (encode_kwargs (st_base self') !! "prompt" = None →
             (SentenceTransformerModel_encode w self' texts' p' ∅).2.1
             = [EvEncode texts' p' (encode_kwargs (st_base self'))])))
  ∧ (∀ (self : CrossEncoderModel CEModel) sentences,
       let self' := (CrossEncoderModel_predict w self sentences kwargs).1 in
       encode_kwargs (ce_base self')
         = dict_update (encode_kwargs (ce_base self)) kwargs
       ∧ (∀ k v, kwargs !! k = Some v →
            encode_kwargs (ce_base self') !! k = Some v)
       ∧ (∀ first rest,
            (CrossEncoderModel_predict w self' (first :: rest) ∅).1 = self'
            ∧ (length first ≠ 3%nat →
               (CrossEncoderModel_predict w self' (first :: rest) ∅).2.1
               = [EvPredict (first :: rest) (encode_kwargs (ce_base self'))])))
  ∧ (∀ (self : APIEmbeddingModel Client) texts,
       (APIEmbeddingModel_encode w self texts kwargs).1 = self).
Proof.
  split; [|split].
  - intros self texts p self'. split; [done|]. split; [|split].
    + intros k v Hk Hv. apply dict_update_lookup_new.
      by rewrite lookup_delete_ne.
    + apply dict_update_lookup_old, lookup_delete_eq.
    + intros texts' p'. split.
      * unfold SentenceTransformerModel_encode. cbn [fst].
        rewrite delete_empty, dict_update_empty. by destruct self' as [[]].
      * intros Hp. unfold SentenceTransformerModel_encode. cbn [snd].
        rewrite delete_empty, dict_update_empty.
        rewrite bool_decide_eq_false_2 by (rewrite Hp; by intros [? ?]).
        rewrite act_bind_call. by case_match.
  - intros self sentences self'. split; [done|]. split.
    + intros k v Hv. by apply dict_update_lookup_new.
    + intros first rest. split.
      * unfold CrossEncoderModel_predict. cbn [fst].
        rewrite dict_update_empty. by destruct self' as [[]].
      * intros Hlen. unfold CrossEncoderModel_predict. cbn [snd].
        rewrite dict_update_empty. apply Nat.eqb_neq in Hlen. rewrite Hlen.
        rewrite act_bind_pure, act_bind_call. by case_match.
  - done.
Qed.

(** ** embed_query and embed_documents *)

(** The remote adapter runs the same computation for a query and for the
    one-document list. *)
Lemma remote_embed_query_is_embed_documents (m : APIEmbeddingModel Client) text :
  embed_query w (Remote m) text = embed_documents w (Remote m) [VStr text].
Proof. reflexivity. Qed.

(** The bi-encoder hands the query, as one string and with the configured
    prompt, and the one-document list, with no prompt, to the model. *)
Lemma bi_embed_query_call (m : SentenceTransformerModel STModel) text :
  encode_kwargs (st_base m) !! "prompt" = None →
  (embed_query w (Bi m) text).2.1
  = [EvEncode (TStr text) (prompt (st_base m)) (encode_kwargs (st_base m))]
  ∧ (embed_documents w (Bi m) [VStr text]).2.1
  = [EvEncode (TList [VStr text]) VNone (encode_kwargs (st_base m))].
Proof.
  intros Hp. unfold embed_query, embed_documents, encode_queries, encode_corpus,
    SentenceTransformerModel_encode_queries,
    SentenceTransformerModel_encode_corpus, SentenceTransformerModel_encode.
  cbn [corpus_texts is_dict prod_map fst snd].
  rewrite delete_empty, dict_update_empty.
  rewrite bool_decide_eq_false_2 by (rewrite Hp; by intros [? ?]).
  unfold fmap_act. rewrite !act_bind_trace, !act_bind_call.
  split; repeat case_match; done.
Qed.

(** C5, where the code departs from it.  On the remote adapter, whatever
    the client answers, a value returned by [embed_query] on a text is the
    value returned by [embed_documents] on the one-text list, the whole
    list of rows: it is never the first row of that list. *)
Theorem remote_embed_query_keeps_batch_axis
    (m : APIEmbeddingModel Client) text v r :
  (embed_query w (Remote m) text).2.2 = Ok v →
  first_item v = Ok r →
  (embed_documents w (Remote m) [VStr text]).2.2 = Ok v ∧ v ≠ r.
Proof.
  intros Hq Hr. rewrite <- remote_embed_query_is_embed_documents.
  split; [done | by apply first_item_differs].
Qed.

End Methods.

(** * The statements at work *)

(** A remote model name wins over an existing-looking path, the
    cross-encoder flag and the hub. *)
Lemma load_prefers_remote_witness :
  truthy (dict_get ({["model_name" := VStr "text-embedding-v3"]} : bag) "model_name")
    = true
  ∧ (EmbeddingModel_load demo "/models/bge" true "modelscope" (Some "master"%string)
       {["model_name" := VStr "text-embedding-v3"]}).1
    = [EvOpenAIEmbeddings (VStr "text-embedding-v3") VNone VNone VNone].
Proof.
  split; [reflexivity|].
  exact (proj1 (proj2 (load_prefers_remote demo "/models/bge" true "modelscope"
                         (Some "master"%string)
                         {["model_name" := VStr "text-embedding-v3"]} eq_refl))).
Defined.

(** A missing path on the ModelScope hub is downloaded once. *)
Lemma load_download_trigger_witness :
  truthy (dict_get (∅ : bag) "model_name") = false
  ∧ os_path_exists demo "org/bge" = false
  ∧ downloads
      (EmbeddingModel_load demo "org/bge" false "modelscope" (Some "master"%string) ∅).1
    = 1%nat.
Proof.
  split; [reflexivity|]. split; [reflexivity|].
  exact (proj1 (proj2 (proj2
    (proj1 (load_download_trigger demo "org/bge" false "modelscope"
              (Some "master"%string) ∅ eq_refl eq_refl) eq_refl)))).
Defined.

(** Five texts in batches of two. *)
Lemma remote_encode_batches_witness :
  batch_size (demo_remote (VInt 2)) = VInt 2
  ∧ 0 < 2
  ∧ (APIEmbeddingModel_encode demo (demo_remote (VInt 2))
       (TList [VStr "a"; VStr "b"; VStr "c"; VStr "d"; VStr "e"]) ∅).2.1
    = [EvEmbedDocuments [VStr "a"; VStr "b"] (VInt 2);
       EvEmbedDocuments [VStr "c"; VStr "d"] (VInt 2);
       EvEmbedDocuments [VStr "e"] (VInt 2)].
Proof.
  split; [reflexivity|]. split; [lia|].
  refine (proj2 (proj2 (proj2 (proj2 (proj2 (proj2
    (remote_encode_batches demo (demo_remote (VInt 2))
       [VStr "a"; VStr "b"; VStr "c"; VStr "d"; VStr "e"] ∅ 2 eq_refl _ _))))))
    _ _ _ _ _ eq_refl eq_refl).
  - lia.
  - intros c _. eexists. reflexivity.
Defined.

(** One triple with a record as document, and one pair. *)
Lemma predict_triples_and_pairs_witness :
  (CrossEncoderModel_predict demo (demo_cross (VStr "query: "))
     (map triple_sentence [("q"%string, VDict {["text" := VStr "d"]}, VStr "instr")])
     ∅).2.1
  = [EvPredict (map (scored_pair "query: ")
                  [("q"%string, VDict {["text" := VStr "d"]}, VStr "instr")])
       (dict_update (encode_kwargs (ce_base (demo_cross (VStr "query: ")))) ∅)]
  ∧ (CrossEncoderModel_predict demo (demo_cross (VStr "query: "))
       [[VStr "q"; VStr "d"]] ∅).2.1
    = [EvPredict [[VStr "q"; VStr "d"]]
         (dict_update (encode_kwargs (ce_base (demo_cross (VStr "query: ")))) ∅)].
Proof.
  destruct (predict_triples_and_pairs demo (demo_cross (VStr "query: ")) ∅)
    as (Htriples & Hpairs & Hlog).
  split.
  - rewrite (Htriples "query: "%string
               [("q"%string, VDict {["text" := VStr "d"]}, VStr "instr")]).
    + apply Hlog.
    + reflexivity.
    + discriminate.
    + repeat constructor. simpl. eexists. reflexivity.
  - rewrite (Hpairs [[VStr "q"; VStr "d"]]).
    + apply Hlog.
    + discriminate.
    + repeat constructor.
Defined.

(** A caller who switches the flag off gets it switched on. *)
Lemma construction_forces_flags_witness :
  match (SentenceTransformerModel_init demo (VStr "m")
           {["model_kwargs" := VDict {["trust_remote_code" := VBool false]}]}).2 with
  | Ok m => forced_flags (st_base m)
  | Raise _ => False
  end.
Proof.
  destruct (SentenceTransformerModel_init demo (VStr "m")
              {["model_kwargs" := VDict {["trust_remote_code" := VBool false]}]}).2
    as [m|e] eqn:E.
  - exact (proj1 (proj1 (construction_forces_flags demo) _ _ m E)).
  - vm_compute in E. discriminate E.
Defined.

(** The empty identifier is accepted when the runtimes accept it. *)
Lemma load_does_not_validate_identifier_witness :
  truthy (dict_get (∅ : bag) "model_name") = false
  ∧ (EmbeddingModel_load demo "" false "huggingface" (Some "master"%string) ∅).2
    = Ok (demo_loaded "").
Proof.
  split; [reflexivity|].
  refine (proj1 (load_does_not_validate_identifier demo false "huggingface"
                   (Some "master"%string) ∅ eq_refl)
            ""%string (demo_loaded "") eq_refl _).
  vm_compute. reflexivity.
Defined.

(** With an empty path and no remote model name [load] returns a
    bi-encoder in a world whose runtimes accept the empty identifier: on
    another hub the identifier is handed over as it is, on ModelScope it is
    downloaded first. *)
Lemma load_without_identifier_counterexample :
  EmbeddingModel_load demo "" false "huggingface" (Some "master"%string) ∅
  = ([EvSentenceTransformer (VStr "")
        {["trust_remote_code" := VBool true]} {["trust_remote_code" := VBool true]};
      EvSetMaxSeqLength (VInt 512)],
     Ok (demo_loaded ""))
  ∧ EmbeddingModel_load demo "" false "modelscope" (Some "master"%string) ∅
    = ([EvDownload "" (Some "master"%string);
        EvSentenceTransformer (VStr "/cache/")
          {["trust_remote_code" := VBool true]} {["trust_remote_code" := VBool true]};
        EvSetMaxSeqLength (VInt 512)],
       Ok (demo_loaded "/cache/")).
Proof. split; vm_compute; reflexivity. Qed.

(** An extra option of the bi-encoder's [encode] is stored. *)
Lemma encode_kwargs_persistence_witness :
  encode_kwargs (st_base
    (SentenceTransformerModel_encode demo (demo_bi (VStr "")) (TStr "a") VNone
       {["batch_size" := VInt 4]}).1) !! "batch_size" = Some (VInt 4).
Proof.
  refine (proj1 (proj2 (proj1 (encode_kwargs_persistence demo {["batch_size" := VInt 4]})
                          (demo_bi (VStr "")) (TStr "a") VNone))
            "batch_size"%string (VInt 4) _ eq_refl).
  discriminate.
Defined.

(** The remote adapter's [encode] drops an extra [batch_size] (the stored
    one stays, and so does the chunking), and the bi-encoder's [encode]
    does not store [prompt_name]. *)
Lemma encode_kwargs_persistence_counterexample :
  encode_kwargs (api_base
    (APIEmbeddingModel_encode demo (demo_remote (VInt 2)) (TList [VStr "a"; VStr "b"])
       {["batch_size" := VInt 1]}).1) !! "batch_size" = Some (VInt 2)
  ∧ (APIEmbeddingModel_encode demo (demo_remote (VInt 2)) (TList [VStr "a"; VStr "b"])
       {["batch_size" := VInt 1]}).2.1
    = [EvEmbedDocuments [VStr "a"; VStr "b"] (VInt 2)]
  ∧ encode_kwargs (st_base
      (SentenceTransformerModel_encode demo (demo_bi (VStr "")) (TStr "a") VNone
         {["prompt_name" := VStr "query"]}).1) !! "prompt_name" = None.
Proof. repeat split; vm_compute; reflexivity. Qed.

(** A pair after a triple is unpacked as a triple. *)
Lemma predict_branch_on_first_witness :
  ∃ e, (CrossEncoderModel_predict demo (demo_cross (VStr ""))
          [[VStr "q"; VStr "d"; VStr "i"]; [VStr "q"; VStr "d"]] ∅).2
       = ([], Raise e).
Proof.
  refine (proj2 (proj2 (proj2 (predict_branch_on_first demo (demo_cross (VStr "")) ∅)))
            [VStr "q"; VStr "d"; VStr "i"] [[VStr "q"; VStr "d"]] [VStr "q"; VStr "d"]
            eq_refl _ _).
  - apply list_elem_of_here.
  - discriminate.
Defined.

(** [embed_query] of the remote adapter on "abc": one row in a list. *)
Lemma remote_embed_query_keeps_batch_axis_witness :
  (embed_query demo (Remote (demo_remote (VInt 10))) "abc").2.2
    = Ok (Nest [Nest [Num 3]])
  ∧ first_item (Nest [Nest [Num 3]]) = Ok (Nest [Num 3])
  ∧ (embed_documents demo (Remote (demo_remote (VInt 10))) [VStr "abc"]).2.2
    = Ok (Nest [Nest [Num 3]])
  ∧ Nest [Nest [Num 3]] ≠ Nest [Num 3].
Proof.
  split; [reflexivity|]. split; [reflexivity|].
  exact (remote_embed_query_keeps_batch_axis demo (demo_remote (VInt 10)) "abc"
           (Nest [Nest [Num 3]]) (Nest [Num 3]) eq_refl eq_refl).
Defined.

(** Two records with whitespace around their fields, on a bi-encoder with
    a prompt: the model receives the trimmed strings, and no prompt. *)
Lemma encode_corpus_normalizes_records_witness :
  encode_kwargs (st_base (demo_bi (VStr "query: "))) !! "prompt" = None
  ∧ (encode_corpus demo (Bi (demo_bi (VStr "query: ")))
       (map record_value [(Some " A"%string, "b "%string); (None, " c"%string)])
       ∅).2.1
    = [EvEncode (TList [VStr "A b"; VStr "c"]) VNone
         (encode_kwargs (st_base (demo_bi (VStr "query: "))))].
Proof.
  split; [reflexivity|].
  exact (proj1 (proj2 (proj2 (proj2 (proj2 (encode_corpus_normalizes_records demo)))))
           (demo_bi (VStr "query: ")) (Some " A"%string, "b "%string)
           [(None, " c"%string)] ∅ eq_refl).
Defined.

(** * Further properties *)

(** ** BaseModel.__init__ and the constructors *)

Lemma BaseModel_init_malformed p kw :
  groups_ok kw = false → BaseModel_init p kw = Raise TypeError.
Proof.
  unfold groups_ok, group_ok, BaseModel_init, dict_get_default.
  destruct (kw !! "model_kwargs") as [[]|]; simpl; try done;
  destruct (kw !! "config_kwargs") as [[]|]; simpl; try done;
  destruct (kw !! "encode_kwargs") as [[]|]; simpl; done.
Qed.

(** [BaseModel.__init__] reads seven keys of its bag and no other. *)
Lemma BaseModel_init_delete p kw k :
  k ∉ ["max_seq_length"; "prompt"; "revision"; "model_kwargs"; "config_kwargs";
       "encode_kwargs"]%string →
  BaseModel_init p (delete k kw) = BaseModel_init p kw.
Proof.
  intros Hk. unfold BaseModel_init, dict_get_default.
  rewrite !not_elem_of_cons in Hk. destruct_and!.
  by rewrite !lookup_delete_ne.
Qed.

Lemma groups_ok_delete kw k :
  k ∉ ["model_kwargs"; "config_kwargs"; "encode_kwargs"]%string →
  groups_ok (delete k kw) = groups_ok kw.
Proof.
  intros Hk. unfold groups_ok, group_ok.
  rewrite !not_elem_of_cons in Hk. destruct_and!.
  by rewrite !lookup_delete_ne.
Qed.

Lemma groups_ok_insert kw k v :
  k ∉ ["model_kwargs"; "config_kwargs"; "encode_kwargs"]%string →
  groups_ok (<[k := v]> kw) = groups_ok kw.
Proof.
  intros Hk. unfold groups_ok, group_ok.
  rewrite !not_elem_of_cons in Hk. destruct_and!.
  by rewrite !lookup_insert_ne.
Qed.

Lemma group_insert kw k v k' : k ≠ k' → group (<[k := v]> kw) k' = group kw k'.
Proof. intros H. unfold group. by rewrite lookup_insert_ne. Qed.

Lemma act_bind_ext {A B} (m : act A) (f g : A → act B) :
  (∀ a, f a = g a) → m ≫= f = m ≫= g.
Proof.
  intros H. unfold mbind, act_bind. destruct m as [t [a|e]]; simpl; [|done].
  by rewrite H.
Qed.

Section MoreConstruction.
Context {STModel Transformer Pooling CEModel Client float : Type}.
Variable w : world STModel Transformer Pooling CEModel Client float.

(** X1.  A bag in which one of the three option groups is present but not
    a dict makes every constructor raise TypeError.  The two local adapters
    raise before any runtime is called; the remote adapter has already built
    its client by then, since it calls [BaseModel.__init__] last. *)
Theorem malformed_group_fails_before_local_runtime kw :
  groups_ok kw = false →
  (∀ p, SentenceTransformerModel_init w p kw = ([], Raise TypeError))
  ∧ (∀ p, CrossEncoderModel_init w p kw = ([], Raise TypeError))
  ∧ (∀ client,
       OpenAIEmbeddings w (dict_get kw "model_name") (dict_get kw "api_base")
         (dict_get kw "api_key") (dict_get kw "dimensions") = Ok client →
       APIEmbeddingModel_init w kw
       = ([EvOpenAIEmbeddings (dict_get kw "model_name") (dict_get kw "api_base")
             (dict_get kw "api_key") (dict_get kw "dimensions")],
          Raise TypeError)).
Proof.
  intros Hbad. split; [|split].
  - intros p. unfold SentenceTransformerModel_init.
    rewrite BaseModel_init_malformed; [by rewrite act_bind_pure|].
    rewrite groups_ok_delete; [done | not_in_list].
  - intros p. unfold CrossEncoderModel_init.
    rewrite BaseModel_init_malformed by done. by rewrite act_bind_pure.
  - intros client Hc. unfold APIEmbeddingModel_init.
    rewrite Hc, act_bind_call, act_bind_pure.
    rewrite BaseModel_init_malformed by done. by case_bool_decide.
Qed.


(** What a returned local adapter has stored. *)
Lemma local_adapter_fields ce p rev kw a :
  (local_adapter w ce p rev kw).2 = Ok a →
  revision (base_of a) = revision_value rev
  ∧ prompt (base_of a) = dict_get_default kw "prompt" (VStr "")
  ∧ max_seq_length (base_of a) = dict_get_default kw "max_seq_length" (VInt 512).
Proof.
  unfold local_adapter. destruct ce; intros H;
    destruct (act_bind_ok _ _ _ H) as (m & Hm & Hr); injection Hr as <-;
    cbn [base_of].
  - apply CrossEncoderModel_init_base in Hm.
    pose proof (BaseModel_init_fields _ _ _ Hm) as (_ & Hmax & Hprompt & Hrev).
    unfold dict_get_default in *.
    rewrite lookup_insert_eq in Hrev. rewrite lookup_insert_ne in Hmax, Hprompt by done.
    done.
  - apply SentenceTransformerModel_init_base in Hm.
    pose proof (BaseModel_init_fields _ _ _ Hm) as (_ & Hmax & Hprompt & Hrev).
    unfold dict_get_default in *.
    rewrite lookup_delete_ne in Hrev, Hmax, Hprompt by done.
    rewrite lookup_insert_eq in Hrev. rewrite lookup_insert_ne in Hmax, Hprompt by done.
    done.
Qed.

(** A returned [load] without remote model name went through the local
    construction on some resolved path. *)
Lemma load_local_ok p ce hub rev kw a :
  truthy (dict_get kw "model_name") = false →
  (EmbeddingModel_load w p ce hub rev kw).2 = Ok a →
  ∃ p', (local_adapter w ce p' rev kw).2 = Ok a.
Proof.
  intros Hname. rewrite load_local by done. intros H.
  destruct (act_bind_ok _ _ _ H) as (p' & _ & Ha). eauto.
Qed.

(** X2.  A path that exists locally is never downloaded, whatever the hub
    is: [load] is the construction of the local adapter from the path as
    given. *)
Theorem load_existing_path_no_download p ce hub rev kwargs :
  truthy (dict_get kwargs "model_name") = false →
  os_path_exists w p = true →
  let run := EmbeddingModel_load w p ce hub rev kwargs in
  run = local_adapter w ce p rev kwargs
  ∧ downloads run.1 = 0%nat
  ∧ (∀ a, run.2 = Ok a → model_name_or_path (base_of a) = VStr p).
Proof.
  intros Hname Hdisk run. unfold run. rewrite load_local by done.
  rewrite Hdisk. cbn [negb andb]. cbv iota. rewrite act_bind_ret.
  split; [done|]. split; [apply local_adapter_downloads|].
  intros a Ha. by apply local_adapter_path in Ha as [? _].
Qed.

Lemma SentenceTransformerModel_init_delete p kw k :
  k ∉ ["pooling_mode"; "max_seq_length"; "prompt"; "revision"; "model_kwargs";
       "config_kwargs"; "encode_kwargs"]%string →
  SentenceTransformerModel_init w p (delete k kw)
  = SentenceTransformerModel_init w p kw.
Proof.
  intros Hk. apply not_elem_of_cons in Hk as [Hpm Hk].
  unfold SentenceTransformerModel_init, dict_get.
  rewrite (delete_delete kw), lookup_delete_ne by done.
  by rewrite BaseModel_init_delete.
Qed.

Lemma CrossEncoderModel_init_delete p kw k :
  k ∉ ["max_seq_length"; "prompt"; "revision"; "model_kwargs";
       "config_kwargs"; "encode_kwargs"]%string →
  CrossEncoderModel_init w p (delete k kw) = CrossEncoderModel_init w p kw.
Proof.
  intros Hk. unfold CrossEncoderModel_init. by rewrite BaseModel_init_delete.
Qed.

Lemma local_adapter_delete ce p rev kw k :
  k ∉ ["revision"; "pooling_mode"; "max_seq_length"; "prompt"; "revision";
       "model_kwargs"; "config_kwargs"; "encode_kwargs"]%string →
  local_adapter w ce p rev (delete k kw) = local_adapter w ce p rev kw.
Proof.
  intros Hk. apply not_elem_of_cons in Hk as [Hrev Hk].
  unfold local_adapter. rewrite <- (delete_insert_ne kw) by done.
  destruct ce.
  - rewrite CrossEncoderModel_init_delete; [done|].
    by apply not_elem_of_cons in Hk as [_ Hk].
  - by rewrite SentenceTransformerModel_init_delete.
Qed.

(** X3.  A remote model name that is not truthy (an empty string, [None],
    zero, ...) counts as no remote model name at all: [load] behaves as on
    the bag without that key, calls and result alike. *)
Theorem load_falsy_model_name_as_absent p ce hub rev kwargs :
  truthy (dict_get kwargs "model_name") = false →
  EmbeddingModel_load w p ce hub rev kwargs
  = EmbeddingModel_load w p ce hub rev (delete "model_name" kwargs).
Proof.
  intros Hname. rewrite !load_local; [|by unfold dict_get; rewrite lookup_delete_eq|done].
  apply act_bind_ext. intros p'. symmetry. apply local_adapter_delete. not_in_list.
Qed.

(** X4.  An adapter that [load] returns without remote model name is a
    cross-encoder exactly when the flag is set and a bi-encoder otherwise; it
    has stored the revision given to [load] ([None] included, not the default
    of [BaseModel]), and the prompt and the maximal sequence length of the
    option bag or, when the bag has none, the empty string and 512. *)
Theorem load_local_stores_options p ce hub rev kwargs a :
  truthy (dict_get kwargs "model_name") = false →
  (EmbeddingModel_load w p ce hub rev kwargs).2 = Ok a →
  match a with
  | Cross _ => ce = true
  | Bi _ => ce = false
  | Remote _ => False
  end
  ∧ revision (base_of a) = revision_value rev
  ∧ prompt (base_of a) = dict_get_default kwargs "prompt" (VStr "")
  ∧ max_seq_length (base_of a) = dict_get_default kwargs "max_seq_length" (VInt 512).
Proof.
  intros Hname Ha. destruct (load_local_ok _ _ _ _ _ _ Hname Ha) as [p' Hp'].
  split; [by apply local_adapter_path in Hp' as [_ ?]|].
  by apply local_adapter_fields in Hp'.
Qed.

(** What a returned remote adapter is made of. *)
Lemma APIEmbeddingModel_init_ok kw m :
  (APIEmbeddingModel_init w kw).2 = Ok m →
  ∃ client b,
    OpenAIEmbeddings w (dict_get kw "model_name") (dict_get kw "api_base")
      (dict_get kw "api_key") (dict_get kw "dimensions") = Ok client
    ∧ BaseModel_init (dict_get kw "model_name") kw = Ok b
    ∧ m = {| api_base := b;
             model_name := dict_get kw "model_name";
             openai_api_base := dict_get kw "api_base";
             openai_api_key := dict_get kw "api_key";
             dimensions := dict_get kw "dimensions";
             api_model := client;
             batch_size := dict_get_default (encode_kwargs b) "batch_size" (VInt 10) |}.
Proof.
  unfold APIEmbeddingModel_init. rewrite act_bind_call.
  destruct (OpenAIEmbeddings w _ _ _ _) as [client|e]; [|discriminate].
  cbn [snd]. rewrite act_bind_pure.
  case_bool_decide; [discriminate|].
  destruct (BaseModel_init _ kw) as [b|e]; [|discriminate].
  intros [= <-]. eauto.
Qed.

(** X5.  The batch size of a constructed remote adapter is the
    [batch_size] entry of the encode options given at construction, and 10
    when there is none; its identifier is the remote model name, and the
    client is the one built from the four connection options of the bag. *)
Theorem remote_construction_batch_size kw m :
  (APIEmbeddingModel_init w kw).2 = Ok m →
  batch_size m = dict_get_default (group kw "encode_kwargs") "batch_size" (VInt 10)
  ∧ model_name_or_path (api_base m) = dict_get kw "model_name"
  ∧ model_name m = dict_get kw "model_name"
  ∧ OpenAIEmbeddings w (dict_get kw "model_name") (dict_get kw "api_base")
      (dict_get kw "api_key") (dict_get kw "dimensions") = Ok (api_model m).
Proof.
  intros (client & b & Hc & Hb & ->)%APIEmbeddingModel_init_ok. cbn.
  pose proof (BaseModel_init_groups _ _ _ Hb) as (_ & _ & He).
  pose proof (BaseModel_init_fields _ _ _ Hb) as (Hp & _).
  split; [|done]. rewrite He. unfold dict_get_default.
  by rewrite lookup_insert_ne.
Qed.

(** X6.  For the remote adapter [load] passes on the option bag only: the
    path, the hub and the revision given to [load] are dropped, so the
    returned adapter is identified by the remote model name and carries the
    default revision [master] of [BaseModel]. *)
Theorem load_remote_drops_path_and_revision p ce hub rev kwargs a :
  truthy (dict_get kwargs "model_name") = true →
  kwargs !! "revision" = None →
  (EmbeddingModel_load w p ce hub rev kwargs).2 = Ok a →
  model_name_or_path (base_of a) = dict_get kwargs "model_name"
  ∧ revision (base_of a) = VStr "master"
  ∧ EmbeddingModel_load w p ce hub rev kwargs
    = EmbeddingModel_load w "" false "" None kwargs.
Proof.
  intros Hname Hrev. unfold EmbeddingModel_load. rewrite Hname. intros H.
  destruct (act_bind_ok _ _ _ H) as (m & Hm & Hr). injection Hr as <-.
  apply APIEmbeddingModel_init_base in Hm as [Hm _].
  apply BaseModel_init_fields in Hm as (Hp & _ & _ & Hr). cbn [base_of].
  split; [done|]. split; [|done].
  rewrite Hr. unfold dict_get_default. by rewrite Hrev.
Qed.

(** X7.  A bi-encoder that is returned was built in one of two ways, each
    ending with the assignment of the maximal sequence length to the model
    that is then kept: without pooling mode, by the runtime's constructor on
    the identifier and the two option groups; with a pooling mode, by the
    transformer stage on the same arguments, the pooling stage on the
    dimension that this transformer stage reported and the caller's pooling
    mode, and the assembly of these two stages.  A cross-encoder that is
    returned keeps the model of one call, on the identifier and the maximal
    sequence length of the bag or 512. *)
Theorem local_construction_calls :
  (∀ p kw m, (SentenceTransformerModel_init w p kw).2 = Ok m →
     let b := st_base m in
     if truthy (dict_get kw "pooling_mode") then
       ∃ transformer dimension pooling model,
         models_Transformer w p (config_kwargs b) (model_kwargs b) = Ok transformer
         ∧ get_word_embedding_dimension w transformer = Ok dimension
         ∧ models_Pooling w dimension (dict_get kw "pooling_mode") = Ok pooling
         ∧ SentenceTransformer_modules w transformer pooling = Ok model
         ∧ set_max_seq_length w model (max_seq_length b) = Ok (st_model m)
         ∧ (SentenceTransformerModel_init w p kw).1
           = [EvTransformer p (config_kwargs b) (model_kwargs b);
              EvWordEmbeddingDimension;
              EvPooling dimension (dict_get kw "pooling_mode");
              EvSentenceTransformerModules;
              EvSetMaxSeqLength (max_seq_length b)]
     else
       ∃ model,
         SentenceTransformer w p (config_kwargs b) (model_kwargs b) = Ok model
         ∧ set_max_seq_length w model (max_seq_length b) = Ok (st_model m)
         ∧ (SentenceTransformerModel_init w p kw).1
           = [EvSentenceTransformer p (config_kwargs b) (model_kwargs b);
              EvSetMaxSeqLength (max_seq_length b)])
  ∧ (∀ p kw m, (CrossEncoderModel_init w p kw).2 = Ok m →
       CrossEncoder w p (dict_get_default kw "max_seq_length" (VInt 512))
       = Ok (ce_model m)
       ∧ (CrossEncoderModel_init w p kw).1
         = [EvCrossEncoder p (dict_get_default kw "max_seq_length" (VInt 512))]).
Proof.
  split.
  - intros p kw m Hm. cbv zeta.
    pose proof (SentenceTransformerModel_init_base w p kw m Hm) as Hb.
    pose proof (BaseModel_init_fields _ _ _ Hb) as (Hp & _).
    revert Hm. unfold SentenceTransformerModel_init.
    rewrite Hb, act_bind_pure. cbv beta iota. rewrite Hp.
    destruct (truthy (dict_get kw "pooling_mode")); cbn [negb]; cbv iota.
    + unfold mbind, act_bind, call, mret, act_ret; simpl.
      destruct (models_Transformer w _ _ _) as [t|] eqn:Ht; simpl; [|discriminate].
      destruct (get_word_embedding_dimension w t) as [d|] eqn:Hd; simpl;
        [|discriminate].
      destruct (models_Pooling w d _) as [pm|] eqn:Hpm; simpl; [|discriminate].
      destruct (SentenceTransformer_modules w t pm) as [model|] eqn:Hmod; simpl;
        [|discriminate].
      destruct (set_max_seq_length w model _) as [model'|] eqn:Hset; simpl;
        [|discriminate].
      intros [= <-]. exists t, d, pm, model. simpl. done.
    + unfold mbind, act_bind, call, mret, act_ret; simpl.
      destruct (SentenceTransformer w _ _ _) as [model|] eqn:Hst; simpl;
        [|discriminate].
      destruct (set_max_seq_length w model _) as [model'|] eqn:Hset; simpl;
        [|discriminate].
      intros [= <-]. exists model. simpl. done.
  - intros p kw m Hm.
    pose proof (CrossEncoderModel_init_base w p kw m Hm) as Hb.
    pose proof (BaseModel_init_fields _ _ _ Hb) as (Hp & Hmax & _).
    revert Hm. unfold CrossEncoderModel_init. rewrite Hb, act_bind_pure.
    cbv beta iota. rewrite act_bind_call, Hp, Hmax.
    destruct (CrossEncoder w p _) as [model|]; [|discriminate].
    by intros [= <-].
Qed.

(** X8.  An adapter that [load] returns with the cross-encoder flag set
    cannot embed: [embed_query] and [embed_documents] raise
    NotImplementedError, without a call to the model and without a change
    to the adapter. *)
Theorem loaded_cross_encoder_cannot_embed p hub rev kwargs a :
  truthy (dict_get kwargs "model_name") = false →
  (EmbeddingModel_load w p true hub rev kwargs).2 = Ok a →
  (∀ text, embed_query w a text = (a, ([], Raise NotImplementedError)))
  ∧ (∀ texts, embed_documents w a texts = (a, ([], Raise NotImplementedError))).
Proof.
  intros Hname Ha. destruct (load_local_ok _ _ _ _ _ _ Hname Ha) as [p' Hp'].
  apply local_adapter_path in Hp' as [_ Hkind].
  destruct a as [m|m|m]; [done| |done]. by split.
Qed.

End MoreConstruction.

(** ** APIEmbeddingModel.encode, further *)

Lemma chunks_from_bounds {A} fuel size (l c : list A) :
  (0 < size)%nat → c ∈ chunks_from fuel size l →
  (1 ≤ length c ≤ size)%nat.
Proof.
  intros Hs. revert l. induction fuel as [|fuel IH]; intros l Hc.
  - by apply elem_of_nil in Hc.
  - destruct l as [|x l]; [by apply elem_of_nil in Hc|].
    cbn [chunks_from] in Hc. apply elem_of_cons in Hc as [->|Hc]; [|by eapply IH].
    rewrite length_take. cbn [length]. lia.
Qed.

Lemma rectangular_same_length {A} (rows : list (list A)) d :
  Forall (λ row, length row = d) rows → rectangular rows = true.
Proof.
  destruct rows as [|r rest]; [done|]. intros [Hr Hrest]%Forall_cons. simpl.
  apply forallb_forall. intros r' Hin%list_elem_of_In.
  rewrite Forall_forall in Hrest. apply Nat.eqb_eq. rewrite Hr. by apply Hrest.
Qed.

Lemma concat_map_length {A B} (f : list A → list B) (cs : list (list A)) :
  (∀ c, c ∈ cs → length (f c) = length c) →
  length (concat (map f cs)) = length (concat cs).
Proof.
  induction cs as [|c cs IH]; intros H; [done|].
  cbn [map concat]. rewrite !length_app, H by apply list_elem_of_here.
  rewrite IH; [done|]. intros ? ?. apply H. by apply list_elem_of_further.
Qed.

Section MoreRemote.
Context {STModel Transformer Pooling CEModel Client float : Type}.
Variable w : world STModel Transformer Pooling CEModel Client float.

(** Whatever the client answers, the loop only calls it on chunks. *)
Lemma embed_batches_log (self : APIEmbeddingModel Client) texts size fuel i acc ev :
  0 < size → 0 ≤ i →
  ev ∈ (embed_batches w self texts size
          (range_from fuel i (Z.of_nat (length texts)) size) acc).1 →
  ∃ c, ev = EvEmbedDocuments c (batch_size self)
       ∧ c ∈ chunks_from fuel (Z.to_nat size) (drop (Z.to_nat i) texts).
Proof.
  intros Hs. revert i acc. induction fuel as [|fuel IH]; intros i acc Hi Hev.
  - by apply elem_of_nil in Hev.
  - cbn [range_from] in Hev.
    destruct (Z.ltb_spec i (Z.of_nat (length texts))) as [Hlt|Hge];
      [|by apply elem_of_nil in Hev].
    destruct (drop (Z.to_nat i) texts) as [|x rest] eqn:Hdrop.
    { apply (f_equal length) in Hdrop. rewrite length_drop in Hdrop.
      simpl in Hdrop. lia. }
    cbn [chunks_from embed_batches] in *. rewrite <- Hdrop in *.
    assert (py_slice texts i (i + size)
            = take (Z.to_nat size) (drop (Z.to_nat i) texts)) as Hslice.
    { unfold py_slice. do 2 f_equal. lia. }
    rewrite Hslice, act_bind_call in Hev.
    assert (drop (Z.to_nat size) (drop (Z.to_nat i) texts)
            = drop (Z.to_nat (i + size)) texts) as Hnext.
    { rewrite drop_drop. f_equal. lia. }
    rewrite Hnext.
    destruct (embed_documents_api w _ _ _) as [r|e]; cbn [fst] in Hev;
      apply elem_of_cons in Hev as [->|Hev].
    + eexists. split; [done | apply list_elem_of_here].
    + destruct (IH (i + size) _ ltac:(lia) Hev) as (c & -> & Hc).
      eexists. split; [done | by apply list_elem_of_further].
    + eexists. split; [done | apply list_elem_of_here].
    + by apply elem_of_nil in Hev.
Qed.

(** The loop stops at the first chunk that the client refuses. *)
Lemma embed_batches_fails (self : APIEmbeddingModel Client) texts size fuel i acc
    pre c post e :
  0 < size → 0 ≤ i →
  chunks_from fuel (Z.to_nat size) (drop (Z.to_nat i) texts) = pre ++ c :: post →
  (∀ c', c' ∈ pre →
         ∃ r, embed_documents_api w (api_model self) c' (batch_size self) = Ok r) →
  embed_documents_api w (api_model self) c (batch_size self) = Raise e →
  embed_batches w self texts size
    (range_from fuel i (Z.of_nat (length texts)) size) acc
  = (map (λ c, EvEmbedDocuments c (batch_size self)) (pre ++ [c]), Raise e).
Proof.
  intros Hs. revert i acc pre.
  induction fuel as [|fuel IH]; intros i acc pre Hi Hchunks Hpre Hc.
  - by destruct pre.
  - cbn [range_from].
    destruct (drop (Z.to_nat i) texts) as [|x rest] eqn:Hdrop;
      [by destruct pre|].
    destruct (Z.ltb_spec i (Z.of_nat (length texts))) as [Hlt|Hge].
    2:{ rewrite drop_ge in Hdrop by lia. done. }
    cbn [chunks_from embed_batches] in *. rewrite <- Hdrop in *.
    assert (py_slice texts i (i + size)
            = take (Z.to_nat size) (drop (Z.to_nat i) texts)) as Hslice.
    { unfold py_slice. do 2 f_equal. lia. }
    rewrite Hslice, act_bind_call.
    assert (drop (Z.to_nat size) (drop (Z.to_nat i) texts)
            = drop (Z.to_nat (i + size)) texts) as Hnext.
    { rewrite drop_drop. f_equal. lia. }
    rewrite Hnext in Hchunks.
    destruct pre as [|c0 pre]; cbn [app] in Hchunks; injection Hchunks as Hhd Htl.
    + rewrite Hhd, Hc. done.
    + destruct (Hpre c0) as [r Hr]; [apply list_elem_of_here|].
      rewrite Hhd, Hr.
      rewrite (IH (i + size) _ pre ltac:(lia) Htl); [done | | done].
      intros c' Hc'. apply Hpre. by apply list_elem_of_further.
Qed.

(** [encode] with a positive integer batch size, as a run of the loop. *)
Lemma remote_encode_unfold (self : APIEmbeddingModel Client) texts kwargs size :
  as_index (batch_size self) = Ok size → 0 < size →
  (APIEmbeddingModel_encode w self (TList texts) kwargs).2
  = embed_batches w self texts size
      (range_from (length texts) 0 (Z.of_nat (length texts)) size) []
    ≫= λ embeddings, pure (torch_tensor w embeddings).
Proof.
  intros Hb Hs. unfold APIEmbeddingModel_encode. cbn [snd].
  rewrite Hb, act_bind_pure.
  destruct (Z.eqb_spec size 0) as [->|_]; [lia|].
  unfold py_range. destruct (Z.ltb_spec 0 size) as [_|]; [|lia].
  by rewrite Nat2Z.id.
Qed.

(** X9.  The remote adapter's [encode] with a degenerate batch size never
    calls the client: a batch size of zero raises ValueError, a batch size
    that is not an integer raises TypeError, and a negative batch size
    returns the empty tensor, whatever texts were given. *)
Theorem remote_encode_degenerate_batch_size
    (self : APIEmbeddingModel Client) texts kwargs :
  let run := APIEmbeddingModel_encode w self texts kwargs in
  (as_index (batch_size self) = Ok 0 → run.2 = ([], Raise ValueError))
  ∧ (∀ size, as_index (batch_size self) = Ok size → size < 0 →
       run.2 = ([], Ok (Nest [])))
  ∧ (as_index (batch_size self) = Raise TypeError → run.2 = ([], Raise TypeError)).
Proof.
  intros run. unfold run, APIEmbeddingModel_encode. cbn [snd].
  split; [|split].
  - intros ->. by rewrite act_bind_pure.
  - intros size -> Hneg. rewrite act_bind_pure.
    destruct (Z.eqb_spec size 0) as [->|_]; [lia|].
    unfold py_range. destruct (Z.ltb_spec 0 size) as [|_]; [lia|].
    done.
  - intros ->. by rewrite act_bind_pure.
Qed.

(** X10.  On the empty list of texts the remote adapter's [encode], with
    any integer batch size other than zero, returns the empty tensor without
    calling the client. *)
Theorem remote_encode_empty_list (self : APIEmbeddingModel Client) kwargs size :
  as_index (batch_size self) = Ok size → size ≠ 0 →
  (APIEmbeddingModel_encode w self (TList []) kwargs).2 = ([], Ok (Nest [])).
Proof.
  intros Hb Hs. unfold APIEmbeddingModel_encode. cbn [snd].
  rewrite Hb, act_bind_pure.
  destruct (Z.eqb_spec size 0) as [->|_]; [done|].
  unfold py_range. cbn [length Z.of_nat Z.to_nat range_from].
  by destruct (0 <? size).
Qed.

(** X11.  There is no retry: when the client raises on a chunk, having
    answered the chunks before it, [encode] has called the client on those
    chunks and on the failing one, in order, calls it on no later chunk and
    raises the client's exception. *)
Theorem remote_encode_stops_at_first_failure
    (self : APIEmbeddingModel Client) texts kwargs size pre c post e :
  batch_size self = VInt size → 0 < size →
  chunks (Z.to_nat size) texts = pre ++ c :: post →
  (∀ c', c' ∈ pre →
         ∃ r, embed_documents_api w (api_model self) c' (VInt size) = Ok r) →
  embed_documents_api w (api_model self) c (VInt size) = Raise e →
  (APIEmbeddingModel_encode w self (TList texts) kwargs).2
  = (map (λ c, EvEmbedDocuments c (VInt size)) (pre ++ [c]), Raise e).
Proof.
  intros Hb Hs Hchunks Hpre Hc.
  rewrite (remote_encode_unfold self texts kwargs size) by (by rewrite Hb || done).
  rewrite (embed_batches_fails self texts size (length texts) 0 [] pre c post e);
    rewrite ?Hb; done.
Qed.


(** X12.  Whatever the client answers and whatever the batch size is,
    every call that the remote adapter's [encode] makes is a batch-embed call
    with the stored batch size as hint, on a chunk that is not empty and has
    at most batch-size texts. *)
Theorem remote_encode_chunk_bounds
    (self : APIEmbeddingModel Client) texts kwargs ev :
  ev ∈ (APIEmbeddingModel_encode w self texts kwargs).2.1 →
  ∃ c size,
    ev = EvEmbedDocuments c (batch_size self)
    ∧ as_index (batch_size self) = Ok size
    ∧ (1 ≤ length c ≤ Z.to_nat size)%nat.
Proof.
  unfold APIEmbeddingModel_encode. cbn [snd]. rewrite act_bind_pure.
  destruct (as_index (batch_size self)) as [size|e] eqn:Hb;
    [|by intros ?%elem_of_nil].
  destruct (Z.eqb_spec size 0) as [->|_]; [by intros ?%elem_of_nil|].
  rewrite act_bind_trace. unfold py_range.
  destruct (Z.ltb_spec 0 size) as [Hs|_].
  2:{ cbn. by intros ?%elem_of_nil. }
  rewrite Nat2Z.id. intros [Hev|Hev]%elem_of_app.
  - apply embed_batches_log in Hev as (c & -> & Hc); [|done..].
    exists c, size. split; [done|]. split; [done|].
    eapply chunks_from_bounds; [lia | done].
  - destruct (embed_batches _ _ _ _ _ _).2; by apply elem_of_nil in Hev.
Qed.

(** X13.  When the client answers every chunk with one vector per text,
    all of one length [d], the remote adapter's [encode] returns a tensor
    with one row per input text, each row of [d] numbers. *)
Theorem remote_encode_row_count
    (self : APIEmbeddingModel Client) texts kwargs size d :
  batch_size self = VInt size → 0 < size →
  (∀ c, c ∈ chunks (Z.to_nat size) texts →
        ∃ r, embed_documents_api w (api_model self) c (VInt size) = Ok r
             ∧ length r = length c
             ∧ Forall (λ row, length row = d) r) →
  ∃ rows,
    (APIEmbeddingModel_encode w self (TList texts) kwargs).2.2 = Ok (Nest rows)
    ∧ length rows = length texts
    ∧ Forall (λ row, ∃ xs, row = Nest xs ∧ length xs = d) rows.
Proof.
  intros Hb Hs Hok.
  rewrite (remote_encode_unfold self texts kwargs size) by (by rewrite Hb || done).
  pose proof (embed_batches_chunks w self texts size (length texts) 0 []) as E.
  rewrite Hb in E. change (drop (Z.to_nat 0) texts) with texts in E.
  fold (chunks (Z.to_nat size) texts) in E.
  rewrite E; [|done|lia|].
  2:{ intros c Hc. destruct (Hok c Hc) as (r & Hr & _). eauto. }
  clear E. unfold mbind, act_bind, pure. cbn [fst snd app].
  set (rows := concat (map (response w self) (chunks (Z.to_nat size) texts))).
  assert (Forall (λ row, length row = d) rows) as Hd.
  { apply Forall_concat, Forall_map, Forall_forall. intros c Hc. cbn.
    destruct (Hok c Hc) as (r & Hr & _ & Hrows). unfold response.
    by rewrite Hb, Hr. }
  assert (length rows = length texts) as Hlen.
  { transitivity (length (concat (chunks (Z.to_nat size) texts)));
      [|unfold chunks; by rewrite chunks_from_concat by lia].
    unfold rows. apply concat_map_length. intros c Hc.
    destruct (Hok c Hc) as (r & Hr & Hrc & _).
    unfold response. by rewrite Hb, Hr. }
  unfold torch_tensor. rewrite (rectangular_same_length rows d Hd).
  eexists. split; [done|]. split; [by rewrite length_map|].
  apply Forall_map. eapply Forall_impl; [exact Hd|].
  intros row Hrow. cbn. eexists. split; [done|]. by rewrite length_map.
Qed.

End MoreRemote.

(** ** Strings, further *)

Lemma rstrip_idempotent s : rstrip (rstrip s) = rstrip s.
Proof.
  induction s as [|c s IH]; [done|]. cbn [rstrip].
  destruct (rstrip s) as [|c' r] eqn:Hr.
  - destruct (is_space c) eqn:Hc; [done|]. cbn [rstrip]. by rewrite Hc.
  - cbn [rstrip]. cbn [rstrip] in IH. by rewrite IH.
Qed.

Lemma lstrip_rstrip_lstrip s : lstrip (rstrip (lstrip s)) = rstrip (lstrip s).
Proof.
  induction s as [|c s IH]; [done|]. cbn [lstrip].
  destruct (is_space c) eqn:Hc; [exact IH|]. cbn [rstrip].
  destruct (rstrip s); rewrite ?Hc; cbn [lstrip]; by rewrite Hc.
Qed.

Lemma strip_trimmed s : trimmed (strip s).
Proof.
  unfold trimmed, strip. split;
    [apply lstrip_rstrip_lstrip | apply rstrip_idempotent].
Qed.

Section MoreMethods.
Context {STModel Transformer Pooling CEModel Client float : Type}.
Variable w : world STModel Transformer Pooling CEModel Client float.

(** ** encode_corpus, further *)

(** The loop over the records stops at the first element that it cannot
    normalise, with that element's exception. *)
Lemma mapM_normalize_first_failure (pre : list pyval) x post e :
  Forall (λ v, ∃ d, v = VDict d ∧ is_Some (d !! "text")) pre →
  normalize_doc w x = Raise e →
  mapM (normalize_doc w) (pre ++ x :: post) = Raise e.
Proof.
  intros Hpre Hx. induction Hpre as [|v pre (d & -> & [t Ht]) _ IH].
  - cbn [app mapM]. by rewrite Hx.
  - cbn [app mapM normalize_doc]. rewrite Ht. cbn [mbind outcome_bind].
    by rewrite IH.
Qed.

Lemma corpus_texts_first_failure (pre : list pyval) x post e :
  Forall (λ v, ∃ d, v = VDict d ∧ is_Some (d !! "text")) pre →
  is_dict (default x (head pre)) = true →
  normalize_doc w x = Raise e →
  corpus_texts w (pre ++ x :: post) = Raise e.
Proof.
  intros Hpre Hfirst Hx.
  pose proof (mapM_normalize_first_failure pre x post e Hpre Hx) as Hm.
  unfold corpus_texts. destruct pre as [|v pre]; simpl in Hfirst;
    cbn [app] in *; by rewrite Hfirst.
Qed.

(** X14.  [encode_corpus] looks at the first element only to choose
    between the two ways of preparing the texts.  An empty corpus raises
    IndexError.  A corpus whose first element is not a record is encoded as
    given, records among the later elements included.  After a first record,
    every element is normalised as a record, in order, up to the first that
    cannot be: an element that is not a record raises AttributeError when all
    elements before it are records with a [text], and a record without
    [text] raises KeyError when all elements before it are records with a
    [text], whatever comes after.  Whenever the preparation of the texts
    raises, neither the bi-encoder nor the remote adapter calls its model,
    and the adapter is unchanged. *)
Theorem encode_corpus_branch_on_first :
  corpus_texts w [] = Raise IndexError
  ∧ (∀ first rest, is_dict first = false →
       corpus_texts w (first :: rest) = Ok (first :: rest))
  ∧ (∀ pre s post,
       pre ≠ [] →
       Forall (λ v, ∃ d, v = VDict d ∧ is_Some (d !! "text")) pre →
       is_dict s = false →
       corpus_texts w (pre ++ s :: post) = Raise AttributeError)
  ∧ (∀ pre d post,
       Forall (λ v, ∃ d, v = VDict d ∧ is_Some (d !! "text")) pre →
       d !! "text" = None →
       corpus_texts w (pre ++ VDict d :: post) = Raise KeyError)
  ∧ (∀ corpus e kwargs, corpus_texts w corpus = Raise e →
       (∀ m : SentenceTransformerModel STModel,
          encode_corpus w (Bi m) corpus kwargs
          = (Bi m : adapter STModel CEModel Client, ([], Raise e)))
       ∧ (∀ m : APIEmbeddingModel Client,
            encode_corpus w (Remote m) corpus kwargs
            = (Remote m : adapter STModel CEModel Client, ([], Raise e)))).
Proof.
  split; [done|]. split; [|split; [|split]].
  - intros first rest Hf. unfold corpus_texts. by rewrite Hf.
  - intros pre s post Hne Hpre Hs. apply corpus_texts_first_failure; [done| |].
    + destruct pre as [|v pre]; [done|].
      apply Forall_cons in Hpre as [(d & -> & _) _]. done.
    + by destruct s.
  - intros pre d post Hpre Hd. apply corpus_texts_first_failure; [done| |].
    + destruct pre as [|v pre]; [done|].
      apply Forall_cons in Hpre as [(d' & -> & _) _]. done.
    + cbn [normalize_doc]. by rewrite Hd.
  - intros corpus e kwargs He. split; intros m; unfold encode_corpus,
      SentenceTransformerModel_encode_corpus, APIEmbeddingModel_encode_corpus;
      by rewrite He.
Qed.

(** X15.  The text that stands for a structured record is a string
    without whitespace at either end, whatever the title and text fields
    hold: trimming it again changes nothing. *)
Theorem normalized_text_is_trimmed doc text :
  normalize_doc w doc = Ok text →
  ∃ s, text = VStr s ∧ trimmed s ∧ strip s = s.
Proof.
  unfold normalize_doc. destruct doc; try discriminate.
  destruct (d !! "text"); [|discriminate]. intros [= <-].
  eexists. split; [done|]. pose proof (strip_trimmed
    (format_arg w (dict_get_default d "title" (VStr "")) ++ " " ++ format_arg w p))
    as Ht.
  split; [done|]. destruct Ht as [Hl Hr]. unfold strip at 1. by rewrite Hl.
Qed.

(** ** SentenceTransformerModel.encode, further *)

(** X16.  The bi-encoder's [encode] either raises TypeError without
    calling the model, when the merged encode options hold a [prompt] entry
    (it would be passed twice), or calls the model exactly once, with the
    merged options; it then returns the tensor that the model returned,
    raises AssertionError when the model returned something else, and lets
    an exception of the model through. *)
Theorem bi_encode_outcome (self : SentenceTransformerModel STModel)
    texts p kwargs :
  let ek := dict_update (encode_kwargs (st_base self)) (delete "prompt_name" kwargs) in
  let run := SentenceTransformerModel_encode w self texts p kwargs in
  (is_Some (ek !! "prompt") → run.2 = ([], Raise TypeError))
  ∧ (ek !! "prompt" = None →
     run.2.1 = [EvEncode texts p ek]
     ∧ run.2.2 =
         match SentenceTransformer_encode w (st_model self) texts p ek with
         | Ok (Tensor t) => Ok t
         | Ok (NotTensor _) => Raise AssertionError
         | Raise e => Raise e
         end).
Proof.
  intros ek run. unfold run, SentenceTransformerModel_encode. cbn [snd]. fold ek.
  split.
  - intros Hp. by rewrite bool_decide_eq_true_2.
  - intros Hp. rewrite bool_decide_eq_false_2 by (rewrite Hp; by intros [? ?]).
    rewrite act_bind_call.
    destruct (SentenceTransformer_encode w _ _ _ _) as [[t|v]|e]; done.
Qed.

(** X17.  Stored encode options are never removed and never changed
    behind the caller's back.  Across any sequence of [encode] calls on the
    bi-encoder, and of [predict] calls on the cross-encoder, a key that is
    stored stays stored, and a key that none of the calls passes keeps its
    value: the [convert_to_tensor] flag forced at construction survives every
    sequence of calls that do not pass [convert_to_tensor] themselves.  On the
    bi-encoder [prompt_name] keeps whatever it held before, even when calls
    pass it. *)
Theorem encode_options_only_grow :
  (∀ (self : SentenceTransformerModel STModel) calls k,
     let self' := encode_calls w self calls in
     (is_Some (encode_kwargs (st_base self) !! k) →
      is_Some (encode_kwargs (st_base self') !! k))
     ∧ (Forall (λ c, c.2 !! k = None) calls →
        encode_kwargs (st_base self') !! k = encode_kwargs (st_base self) !! k)
     ∧ encode_kwargs (st_base self') !! "prompt_name"
       = encode_kwargs (st_base self) !! "prompt_name")
  ∧ (∀ (self : CrossEncoderModel CEModel) calls k,
       let self' := predict_calls w self calls in
       (is_Some (encode_kwargs (ce_base self) !! k) →
        is_Some (encode_kwargs (ce_base self') !! k))
       ∧ (Forall (λ c, c.2 !! k = None) calls →
          encode_kwargs (ce_base self') !! k = encode_kwargs (ce_base self) !! k)).
Proof.
  split.
  - intros self calls k. cbv zeta. revert self.
    induction calls as [|c calls IH]; intros self; [done|].
    cbn [encode_calls].
    set (next := (SentenceTransformerModel_encode w self c.1.1 c.1.2 c.2).1).
    destruct (IH next) as (Hsome & Hsame & Hname).
    assert (encode_kwargs (st_base next)
            = dict_update (encode_kwargs (st_base self)) (delete "prompt_name" c.2))
      as Hnext by done.
    split; [|split].
    + intros [v Hv]. apply Hsome. rewrite Hnext. unfold dict_update.
      destruct (delete "prompt_name" c.2 !! k) as [v'|] eqn:Hk.
      * exists v'. by apply lookup_union_Some_l.
      * exists v. by rewrite lookup_union_r.
    + intros [Hc Hrest]%Forall_cons. rewrite (Hsame Hrest), Hnext.
      apply dict_update_lookup_old.
      destruct (decide (k = "prompt_name")) as [->|Hne];
        [apply lookup_delete_eq | by rewrite lookup_delete_ne].
    + rewrite Hname, Hnext. apply dict_update_lookup_old, lookup_delete_eq.
  - intros self calls k. cbv zeta. revert self.
    induction calls as [|c calls IH]; intros self; [done|].
    cbn [predict_calls].
    set (next := (CrossEncoderModel_predict w self c.1 c.2).1).
    destruct (IH next) as (Hsome & Hsame).
    assert (encode_kwargs (ce_base next)
            = dict_update (encode_kwargs (ce_base self)) c.2) as Hnext by done.
    split.
    + intros [v Hv]. apply Hsome. rewrite Hnext. unfold dict_update.
      destruct (c.2 !! k) as [v'|] eqn:Hk.
      * exists v'. by apply lookup_union_Some_l.
      * exists v. by rewrite lookup_union_r.
    + intros [Hc Hrest]%Forall_cons. rewrite (Hsame Hrest), Hnext.
      by apply dict_update_lookup_old.
Qed.

(** X18.  [embed_documents], [embed_query], [encode_queries] and
    [encode_corpus] return the adapter as it was, for each of the three
    adapters: the bi-encoder's two entry points drop their extra keyword
    options instead of merging them. *)
Theorem embedding_leaves_adapter_unchanged (self : adapter STModel CEModel Client) :
  (∀ texts, (embed_documents w self texts).1 = self)
  ∧ (∀ text, (embed_query w self text).1 = self)
  ∧ (∀ queries kwargs, (encode_queries w self queries kwargs).1 = self)
  ∧ (∀ corpus kwargs, (encode_corpus w self corpus kwargs).1 = self).
Proof.
  assert (∀ (m : SentenceTransformerModel STModel) texts p,
            (SentenceTransformerModel_encode w m texts p ∅).1 = m) as Hbi.
  { intros [[] model] texts p. unfold SentenceTransformerModel_encode. cbn.
    by rewrite delete_empty, dict_update_empty. }
  assert (∀ queries kwargs, (encode_queries w self queries kwargs).1 = self) as Hq.
  { intros queries kwargs. destruct self as [m|m|m]; unfold encode_queries;
      (unfold prod_map; cbn [fst]); [|done..].
    unfold SentenceTransformerModel_encode_queries. by rewrite Hbi. }
  assert (∀ corpus kwargs, (encode_corpus w self corpus kwargs).1 = self) as Hc.
  { intros corpus kwargs. destruct self as [m|m|m]; unfold encode_corpus;
      (unfold prod_map; cbn [fst]); [|done|].
    - unfold SentenceTransformerModel_encode_corpus.
      destruct (corpus_texts w corpus); [|done]. by rewrite Hbi.
    - unfold APIEmbeddingModel_encode_corpus.
      by destruct (corpus_texts w corpus). }
  split; [|split; [|split]]; [| |done..].
  - intros texts. unfold embed_documents. (unfold prod_map; cbn [fst]). apply Hc.
  - intros text. unfold embed_query. (unfold prod_map; cbn [fst]). apply Hq.
Qed.

(** X19.  On the bi-encoder [embed_query] asks the model for one string
    with the configured prompt and [embed_documents] for a list with no
    prompt.  When the model answers the first with a vector and the second,
    on the one-text list, with the one-row tensor of that vector,
    [embed_query(t)] is [embed_documents([t])[0]]. *)
Theorem bi_embed_query_agrees_under_contract
    (m : SentenceTransformerModel STModel) text v :
  encode_kwargs (st_base m) !! "prompt" = None →
  SentenceTransformer_encode w (st_model m) (TStr text) (prompt (st_base m))
    (encode_kwargs (st_base m)) = Ok (Tensor v) →
  SentenceTransformer_encode w (st_model m) (TList [VStr text]) VNone
    (encode_kwargs (st_base m)) = Ok (Tensor (Nest [v])) →
  (embed_query w (Bi m) text).2.2 = Ok v
  ∧ ((embed_documents w (Bi m) [VStr text]).2.2 ≫= first_item) = Ok v.
Proof.
  intros Hp Hq Hd. unfold embed_query, embed_documents, encode_queries,
    encode_corpus, SentenceTransformerModel_encode_queries,
    SentenceTransformerModel_encode_corpus, SentenceTransformerModel_encode.
  cbn [corpus_texts is_dict prod_map fst snd].
  rewrite delete_empty, dict_update_empty.
  rewrite bool_decide_eq_false_2 by (rewrite Hp; by intros [? ?]).
  unfold fmap_act. rewrite !act_bind_call, Hq, Hd. done.
Qed.

(** ** CrossEncoderModel.predict, further *)

Lemma mapM_unwrap_shape (self : CrossEncoderModel CEModel)
    (l l' : list (list pyval)) :
  mapM (unwrap_triple self) l = Ok l' →
  length l' = length l
  ∧ Forall (λ pair, length pair = 2%nat) l'
  ∧ Forall (λ s, length s = 3%nat) l.
Proof.
  revert l'. induction l as [|s l IH]; intros l'.
  - intros [= <-]. done.
  - cbn [mapM]. destruct (unwrap_triple self s) as [pair|e] eqn:Hs; [|discriminate].
    cbn [mbind outcome_bind].
    destruct (mapM (unwrap_triple self) l) as [l0|e] eqn:Hl; [|discriminate].
    intros [= <-]. destruct (IH l0 eq_refl) as (Hlen & H2 & H3).
    assert (length s = 3%nat ∧ length pair = 2%nat) as [Hs3 Hp2].
    { unfold unwrap_triple in Hs. destruct s as [|q [|d [|i [|]]]]; try discriminate.
      split; [done|].
      destruct (match d with VDict d0 => _ | _ => _ end); [|discriminate].
      cbn [mbind outcome_bind] in Hs.
      destruct (py_add _ q); [|discriminate]. by injection Hs as <-. }
    split; [cbn; by rewrite Hlen|]. split; by constructor.
Qed.

(** X20.  When the first sentence is a triple, the underlying
    cross-encoder is called only if every sentence is a triple, and then on
    exactly one two-element pair per sentence, with the merged encode
    options. *)
Theorem predict_scores_one_pair_per_triple (self : CrossEncoderModel CEModel)
    first rest kwargs scored ek :
  length first = 3%nat →
  EvPredict scored ek ∈ (CrossEncoderModel_predict w self (first :: rest) kwargs).2.1 →
  length scored = S (length rest)
  ∧ Forall (λ pair, length pair = 2%nat) scored
  ∧ Forall (λ s, length s = 3%nat) (first :: rest)
  ∧ ek = dict_update (encode_kwargs (ce_base self)) kwargs.
Proof.
  intros Hlen. unfold CrossEncoderModel_predict. cbn [snd]. rewrite Hlen.
  cbn [Nat.eqb]. rewrite act_bind_pure.
  destruct (mapM (unwrap_triple self) (first :: rest)) as [l'|e] eqn:Hl;
    [|by intros ?%elem_of_nil].
  rewrite act_bind_call.
  assert (EvPredict scored ek ∈
            [EvPredict l' (dict_update (encode_kwargs (ce_base self)) kwargs)]
          → EvPredict scored ek
            = EvPredict l' (dict_update (encode_kwargs (ce_base self)) kwargs)) as Hone.
  { intros [->|?%elem_of_nil]%elem_of_cons; done. }
  intros Hev.
  assert (EvPredict scored ek
          = EvPredict l' (dict_update (encode_kwargs (ce_base self)) kwargs)) as Heq.
  { apply Hone. revert Hev. by case_match. }
  injection Heq as -> ->. apply mapM_unwrap_shape in Hl as (? & ? & ?). done.
Qed.

(** X21.  A first triple whose document is a record without [text] makes
    [predict] raise KeyError, and, with a string prompt, a first triple whose
    query is not a string makes it raise TypeError; in both cases the
    underlying model is not called. *)
Theorem predict_triple_errors (self : CrossEncoderModel CEModel) kwargs :
  (∀ q d i rest, d !! "text" = None →
     (CrossEncoderModel_predict w self ([q; VDict d; i] :: rest) kwargs).2
     = ([], Raise KeyError))
  ∧ (∀ p q docs i rest,
       prompt (ce_base self) = VStr p → is_Some (doc_text docs) →
       (∀ s, q ≠ VStr s) →
       (CrossEncoderModel_predict w self ([q; docs; i] :: rest) kwargs).2
       = ([], Raise TypeError)).
Proof.
  split.
  - intros q d i rest Hd. unfold CrossEncoderModel_predict.
    cbn [snd length Nat.eqb mapM unwrap_triple]. by rewrite Hd.
  - intros p q docs i rest Hp [t Ht] Hq. unfold CrossEncoderModel_predict.
    cbn [snd length Nat.eqb mapM unwrap_triple]. rewrite Hp.
    assert (py_add (VStr p) q = Raise TypeError) as Hadd.
    { destruct q; try done. by destruct (Hq s). }
    destruct docs; cbn [doc_text] in Ht; cbn [mbind outcome_bind];
      rewrite ?Ht; cbn [mbind outcome_bind]; by rewrite Hadd.
Qed.

(** X22.  The instruction of a triple is never used: two lists of triples
    that differ in their instructions only give the same call, the same
    result and the same instance. *)
Theorem predict_ignores_instruction (self : CrossEncoderModel CEModel) kwargs
    (ts : list (pyval * pyval * pyval * pyval)) :
  CrossEncoderModel_predict w self (map (λ t, [t.1.1.1; t.1.1.2; t.1.2]) ts) kwargs
  = CrossEncoderModel_predict w self (map (λ t, [t.1.1.1; t.1.1.2; t.2]) ts) kwargs.
Proof.
  assert (mapM (unwrap_triple self) (map (λ t, [t.1.1.1; t.1.1.2; t.1.2]) ts)
          = mapM (unwrap_triple self) (map (λ t, [t.1.1.1; t.1.1.2; t.2]) ts)) as H.
  { induction ts as [|t ts IH]; [done|]. cbn [map mapM]. by rewrite IH. }
  unfold CrossEncoderModel_predict. destruct ts as [|t ts]; [done|].
  cbn [map] in *. cbn [length Nat.eqb]. by rewrite H.
Qed.

End MoreMethods.

(** ** The further statements at work *)

Lemma load_existing_path_no_download_witness :
  truthy (dict_get (∅ : bag) "model_name") = false
  ∧ os_path_exists demo_on_disk "/models/bge" = true
  ∧ downloads
      (EmbeddingModel_load demo_on_disk "/models/bge" false "modelscope"
         (Some "master"%string) ∅).1 = 0%nat.
Proof.
  split; [reflexivity|]. split; [reflexivity|].
  exact (proj1 (proj2 (load_existing_path_no_download demo_on_disk "/models/bge"
                         false "modelscope" (Some "master"%string) ∅
                         eq_refl eq_refl))).
Defined.

Lemma load_falsy_model_name_as_absent_witness :
  truthy (dict_get ({["model_name" := VStr ""]} : bag) "model_name") = false
  ∧ EmbeddingModel_load demo "org/bge" false "modelscope" (Some "master"%string)
      {["model_name" := VStr ""]}
    = EmbeddingModel_load demo "org/bge" false "modelscope" (Some "master"%string)
        (delete "model_name" {["model_name" := VStr ""]}).
Proof.
  split; [reflexivity|].
  exact (load_falsy_model_name_as_absent demo "org/bge" false "modelscope"
           (Some "master"%string) {["model_name" := VStr ""]} eq_refl).
Defined.

Lemma load_local_stores_options_witness :
  truthy (dict_get ({["prompt" := VStr "query: "; "max_seq_length" := VInt 256]} : bag)
            "model_name") = false
  ∧ (EmbeddingModel_load demo "org/reranker" true "huggingface" None
       {["prompt" := VStr "query: "; "max_seq_length" := VInt 256]}).2
    = Ok demo_loaded_reranker
  ∧ revision (base_of demo_loaded_reranker) = revision_value None
  ∧ prompt (base_of demo_loaded_reranker)
    = dict_get_default {["prompt" := VStr "query: "; "max_seq_length" := VInt 256]}
        "prompt" (VStr "")
  ∧ max_seq_length (base_of demo_loaded_reranker)
    = dict_get_default {["prompt" := VStr "query: "; "max_seq_length" := VInt 256]}
        "max_seq_length" (VInt 512).
Proof.
  split; [reflexivity|].
  assert ((EmbeddingModel_load demo "org/reranker" true "huggingface" None
             {["prompt" := VStr "query: "; "max_seq_length" := VInt 256]}).2
          = Ok demo_loaded_reranker) as H.
  { vm_compute. reflexivity. }
  split; [exact H|].
  exact (proj2 (load_local_stores_options demo "org/reranker" true "huggingface"
                  None {["prompt" := VStr "query: "; "max_seq_length" := VInt 256]}
                  demo_loaded_reranker eq_refl H)).
Defined.

Lemma load_remote_drops_path_and_revision_witness :
  truthy (dict_get ({["model_name" := VStr "text-embedding-v3"]} : bag) "model_name")
    = true
  ∧ ({["model_name" := VStr "text-embedding-v3"]} : bag) !! "revision" = None
  ∧ (EmbeddingModel_load demo "/models/bge" true "modelscope" None
       {["model_name" := VStr "text-embedding-v3"]}).2
    = Ok (demo_loaded_remote "text-embedding-v3")
  ∧ revision (base_of (demo_loaded_remote "text-embedding-v3")) = VStr "master".
Proof.
  split; [reflexivity|]. split; [reflexivity|].
  assert ((EmbeddingModel_load demo "/models/bge" true "modelscope" None
             {["model_name" := VStr "text-embedding-v3"]}).2
          = Ok (demo_loaded_remote "text-embedding-v3")) as H.
  { vm_compute. reflexivity. }
  split; [exact H|].
  exact (proj1 (proj2 (load_remote_drops_path_and_revision demo "/models/bge" true
                         "modelscope" None
                         {["model_name" := VStr "text-embedding-v3"]}
                         (demo_loaded_remote "text-embedding-v3")
                         eq_refl eq_refl H))).
Defined.

Lemma malformed_group_fails_before_local_runtime_witness :
  groups_ok {["encode_kwargs" := VNone]} = false
  ∧ CrossEncoderModel_init demo (VStr "m") {["encode_kwargs" := VNone]}
    = ([], Raise TypeError)
  ∧ APIEmbeddingModel_init demo {["encode_kwargs" := VNone]}
    = ([EvOpenAIEmbeddings VNone VNone VNone VNone], Raise TypeError).
Proof.
  assert (groups_ok {["encode_kwargs" := VNone]} = false) as Hbad
    by (vm_compute; reflexivity).
  split; [exact Hbad|].
  destruct (malformed_group_fails_before_local_runtime demo
              {["encode_kwargs" := VNone]} Hbad) as (_ & Hce & Hapi).
  split; [apply Hce | exact (Hapi tt eq_refl)].
Defined.

Lemma local_construction_calls_witness :
  (SentenceTransformerModel_init demo (VStr "m") {["pooling_mode" := VStr "mean"]}).2
  = Ok (demo_bi (VStr ""))
  ∧ get_word_embedding_dimension demo tt = Ok (VInt 8)
  ∧ (SentenceTransformerModel_init demo (VStr "m") {["pooling_mode" := VStr "mean"]}).1
    = [EvTransformer (VStr "m") (config_kwargs (st_base (demo_bi (VStr ""))))
         (model_kwargs (st_base (demo_bi (VStr ""))));
       EvWordEmbeddingDimension;
       EvPooling (VInt 8) (VStr "mean");
       EvSentenceTransformerModules;
       EvSetMaxSeqLength (VInt 512)].
Proof.
  assert ((SentenceTransformerModel_init demo (VStr "m")
             {["pooling_mode" := VStr "mean"]}).2 = Ok (demo_bi (VStr ""))) as H
    by (vm_compute; reflexivity).
  split; [exact H|]. split; [reflexivity|].
  pose proof (proj1 (local_construction_calls demo) (VStr "m")
                {["pooling_mode" := VStr "mean"]} (demo_bi (VStr "")) H) as Hcalls.
  cbv zeta in Hcalls.
  change (truthy (dict_get {["pooling_mode" := VStr "mean"]} "pooling_mode"))
    with true in Hcalls.
  cbv iota in Hcalls.
  destruct Hcalls as (transformer & dimension & pooling & model
                      & _ & Hdim & _ & _ & _ & Hlog).
  destruct transformer. injection Hdim as <-. exact Hlog.
Defined.

Lemma remote_construction_batch_size_witness :
  match (APIEmbeddingModel_init demo
           {["model_name" := VStr "ada";
             "encode_kwargs" := VDict {["batch_size" := VInt 32]}]}).2 with
  | Ok m => batch_size m = VInt 32
  | Raise _ => False
  end.
Proof.
  destruct (APIEmbeddingModel_init demo
              {["model_name" := VStr "ada";
                "encode_kwargs" := VDict {["batch_size" := VInt 32]}]}).2
    as [m|e] eqn:E.
  - rewrite (proj1 (remote_construction_batch_size demo _ m E)). reflexivity.
  - vm_compute in E. discriminate E.
Defined.

Lemma remote_encode_degenerate_batch_size_witness :
  (APIEmbeddingModel_encode demo (demo_remote (VInt (-3)))
     (TList [VStr "a"; VStr "b"]) ∅).2 = ([], Ok (Nest []))
  ∧ (APIEmbeddingModel_encode demo (demo_remote (VStr "8"))
       (TList [VStr "a"; VStr "b"]) ∅).2 = ([], Raise TypeError).
Proof.
  split.
  - refine (proj1 (proj2 (remote_encode_degenerate_batch_size demo
              (demo_remote (VInt (-3))) (TList [VStr "a"; VStr "b"]) ∅))
              (-3) eq_refl _). lia.
  - exact (proj2 (proj2 (remote_encode_degenerate_batch_size demo
              (demo_remote (VStr "8")) (TList [VStr "a"; VStr "b"]) ∅)) eq_refl).
Defined.

Lemma remote_encode_empty_list_witness :
  as_index (batch_size (demo_remote (VInt 2))) = Ok 2
  ∧ (APIEmbeddingModel_encode demo (demo_remote (VInt 2)) (TList []) ∅).2
    = ([], Ok (Nest [])).
Proof.
  split; [reflexivity|].
  refine (remote_encode_empty_list demo (demo_remote (VInt 2)) ∅ 2 eq_refl _).
  discriminate.
Defined.

Lemma remote_encode_stops_at_first_failure_witness :
  chunks (Z.to_nat 2) [VStr "a"; VStr "b"; VStr ""; VStr "d"; VStr "e"]
  = [[VStr "a"; VStr "b"]] ++ [VStr ""; VStr "d"] :: [[VStr "e"]]
  ∧ (APIEmbeddingModel_encode demo_refusing (demo_remote (VInt 2))
       (TList [VStr "a"; VStr "b"; VStr ""; VStr "d"; VStr "e"]) ∅).2
    = (map (λ c, EvEmbedDocuments c (VInt 2))
         ([[VStr "a"; VStr "b"]] ++ [[VStr ""; VStr "d"]]),
       Raise (ExternalError "bad request")).
Proof.
  split; [reflexivity|].
  refine (remote_encode_stops_at_first_failure demo_refusing (demo_remote (VInt 2))
            [VStr "a"; VStr "b"; VStr ""; VStr "d"; VStr "e"] ∅ 2
            [[VStr "a"; VStr "b"]] [VStr ""; VStr "d"] [[VStr "e"]]
            (ExternalError "bad request") eq_refl _ eq_refl _ eq_refl).
  - lia.
  - intros c' [->|Hc']%elem_of_cons; [eexists; reflexivity|].
    by apply elem_of_nil in Hc'.
Defined.

Lemma remote_encode_chunk_bounds_witness :
  EvEmbedDocuments [VStr "e"] (VInt 2)
    ∈ (APIEmbeddingModel_encode demo (demo_remote (VInt 2))
         (TList [VStr "a"; VStr "b"; VStr "c"; VStr "d"; VStr "e"]) ∅).2.1
  ∧ ∃ c size,
      EvEmbedDocuments [VStr "e"] (VInt 2)
      = EvEmbedDocuments c (batch_size (demo_remote (VInt 2)))
      ∧ as_index (batch_size (demo_remote (VInt 2))) = Ok size
      ∧ (1 ≤ length c ≤ Z.to_nat size)%nat.
Proof.
  assert (EvEmbedDocuments [VStr "e"] (VInt 2)
    ∈ (APIEmbeddingModel_encode demo (demo_remote (VInt 2))
         (TList [VStr "a"; VStr "b"; VStr "c"; VStr "d"; VStr "e"]) ∅).2.1) as H.
  { change (EvEmbedDocuments [VStr "e"] (VInt 2)
            ∈ [EvEmbedDocuments [VStr "a"; VStr "b"] (VInt 2);
               EvEmbedDocuments [VStr "c"; VStr "d"] (VInt 2);
               EvEmbedDocuments [VStr "e"] (VInt 2)]).
    do 2 apply list_elem_of_further. apply list_elem_of_here. }
  split; [exact H|].
  exact (remote_encode_chunk_bounds demo (demo_remote (VInt 2)) _ ∅ _ H).
Defined.

Lemma remote_encode_row_count_witness :
  batch_size (demo_remote (VInt 2)) = VInt 2
  ∧ 0 < 2
  ∧ ∃ rows,
      (APIEmbeddingModel_encode demo (demo_remote (VInt 2))
         (TList [VStr "a"; VStr "b"; VStr "c"; VStr "d"; VStr "e"]) ∅).2.2
      = Ok (Nest rows)
      ∧ length rows = length [VStr "a"; VStr "b"; VStr "c"; VStr "d"; VStr "e"]
      ∧ Forall (λ row, ∃ xs, row = Nest xs ∧ length xs = 1%nat) rows.
Proof.
  split; [reflexivity|]. split; [lia|].
  refine (remote_encode_row_count demo (demo_remote (VInt 2))
            [VStr "a"; VStr "b"; VStr "c"; VStr "d"; VStr "e"] ∅ 2 1 eq_refl _ _).
  - lia.
  - intros c _. eexists. split; [reflexivity|]. split; [apply length_map|].
    apply Forall_map, Forall_forall. intros v _. reflexivity.
Defined.

Lemma bi_encode_outcome_witness :
  (SentenceTransformerModel_encode demo (demo_bi_with {["prompt" := VStr "query: "]})
     (TStr "a") VNone ∅).2 = ([], Raise TypeError).
Proof.
  refine (proj1 (bi_encode_outcome demo (demo_bi_with {["prompt" := VStr "query: "]})
                   (TStr "a") VNone ∅) _).
  exists (VStr "query: "). vm_compute. reflexivity.
Defined.

Lemma encode_options_only_grow_witness :
  encode_kwargs (st_base
    (encode_calls demo (demo_bi (VStr ""))
       [(TStr "a", VNone, {["batch_size" := VInt 4]});
        (TList [VStr "b"], VStr "query: ", {["prompt_name" := VStr "query"]})]))
    !! "convert_to_tensor"
  = encode_kwargs (st_base (demo_bi (VStr ""))) !! "convert_to_tensor".
Proof.
  refine (proj1 (proj2 (proj1 (encode_options_only_grow demo)
                          (demo_bi (VStr ""))
                          [(TStr "a", VNone, {["batch_size" := VInt 4]});
                           (TList [VStr "b"], VStr "query: ",
                            {["prompt_name" := VStr "query"]})]
                          "convert_to_tensor"%string)) _).
  repeat constructor.
Defined.

Lemma encode_corpus_branch_on_first_witness :
  corpus_texts demo ([VDict {["text" := VStr "b"]}] ++ VStr "c" :: [VDict ∅])
  = Raise AttributeError
  ∧ corpus_texts demo
      ([VDict {["text" := VStr "b"]}] ++ VDict {["title" := VStr "t"]} :: [VStr "c"])
    = Raise KeyError.
Proof.
  destruct (encode_corpus_branch_on_first demo) as (_ & _ & Hattr & Hkey & _).
  assert (Forall (λ v : pyval, ∃ d, v = VDict d ∧ is_Some (d !! "text"))
            [VDict {["text" := VStr "b"]}]) as Hpre.
  { repeat constructor. eexists. split; [reflexivity|].
    exists (VStr "b"). reflexivity. }
  split.
  - apply Hattr; [discriminate | exact Hpre | reflexivity].
  - apply Hkey; [exact Hpre | reflexivity].
Defined.

Lemma normalized_text_is_trimmed_witness :
  normalize_doc demo (VDict {["title" := VStr " A"; "text" := VStr "b "]})
  = Ok (VStr "A b")
  ∧ ∃ s, VStr "A b" = VStr s ∧ trimmed s ∧ strip s = s.
Proof.
  assert (normalize_doc demo (VDict {["title" := VStr " A"; "text" := VStr "b "]})
          = Ok (VStr "A b")) as H by (vm_compute; reflexivity).
  split; [exact H|].
  exact (normalized_text_is_trimmed demo _ _ H).
Defined.

Lemma predict_triple_errors_witness :
  (CrossEncoderModel_predict demo (demo_cross (VStr "query: "))
     [[VStr "q"; VDict {["title" := VStr "t"]}; VStr "i"]] ∅).2
  = ([], Raise KeyError).
Proof.
  exact (proj1 (predict_triple_errors demo (demo_cross (VStr "query: ")) ∅)
           (VStr "q") {["title" := VStr "t"]} (VStr "i") [] eq_refl).
Defined.

Lemma predict_scores_one_pair_per_triple_witness :
  length [VStr "q"; VStr "d"; VStr "i"] = 3%nat
  ∧ EvPredict [[VStr "q"; VStr "d"]]
      (dict_update (encode_kwargs (ce_base (demo_cross (VStr "")))) ∅)
    ∈ (CrossEncoderModel_predict demo (demo_cross (VStr ""))
         [[VStr "q"; VStr "d"; VStr "i"]] ∅).2.1
  ∧ length [[VStr "q"; VStr "d"]] = 1%nat.
Proof.
  split; [reflexivity|].
  assert (EvPredict [[VStr "q"; VStr "d"]]
      (dict_update (encode_kwargs (ce_base (demo_cross (VStr "")))) ∅)
    ∈ (CrossEncoderModel_predict demo (demo_cross (VStr ""))
         [[VStr "q"; VStr "d"; VStr "i"]] ∅).2.1) as H.
  { change (EvPredict [[VStr "q"; VStr "d"]]
      (dict_update (encode_kwargs (ce_base (demo_cross (VStr "")))) ∅)
      ∈ [EvPredict [[VStr "q"; VStr "d"]]
           (dict_update (encode_kwargs (ce_base (demo_cross (VStr "")))) ∅)]).
    apply list_elem_of_here. }
  split; [exact H|].
  exact (proj1 (predict_scores_one_pair_per_triple demo (demo_cross (VStr ""))
                  [VStr "q"; VStr "d"; VStr "i"] [] ∅ _ _ eq_refl H)).
Defined.

Lemma loaded_cross_encoder_cannot_embed_witness :
  truthy (dict_get (∅ : bag) "model_name") = false
  ∧ (EmbeddingModel_load demo "org/reranker" true "modelscope" (Some "master"%string)
       ∅).2 = Ok (demo_loaded_cross "/cache/org/reranker")
  ∧ embed_query demo (demo_loaded_cross "/cache/org/reranker") "abc"
    = (demo_loaded_cross "/cache/org/reranker", ([], Raise NotImplementedError)).
Proof.
  split; [reflexivity|].
  assert ((EmbeddingModel_load demo "org/reranker" true "modelscope"
             (Some "master"%string) ∅).2
          = Ok (demo_loaded_cross "/cache/org/reranker")) as H.
  { vm_compute. reflexivity. }
  split; [exact H|].
  exact (proj1 (loaded_cross_encoder_cannot_embed demo "org/reranker" "modelscope"
                  (Some "master"%string) ∅ (demo_loaded_cross "/cache/org/reranker")
                  eq_refl H) "abc"%string).
Defined.

Lemma bi_embed_query_agrees_under_contract_witness :
  encode_kwargs (st_base (demo_bi (VStr ""))) !! "prompt" = None
  ∧ (embed_query demo (Bi (demo_bi (VStr ""))) "abc").2.2 = Ok (Nest [Num 3])
  ∧ ((embed_documents demo (Bi (demo_bi (VStr ""))) [VStr "abc"]).2.2 ≫= first_item)
    = Ok (Nest [Num 3]).
Proof.
  split; [reflexivity|].
  exact (bi_embed_query_agrees_under_contract demo (demo_bi (VStr "")) "abc"
           (Nest [Num 3]) eq_refl eq_refl eq_refl).
Defined.
